(** * RepositoryInfoClient: resolution of a TFVC repository's server identity

    Shallow embedding of [src/clients/repositoryinfoclient.ts].

    - [Js] holds the JavaScript primitives the class relies on: strings with
      [charAt], [substring], [lastIndexOf], truthiness, and arrays with holes.
    - [Node] holds a model of the [url.resolve] function of Node's [url]
      module, used only to evaluate the resolver on concrete inputs.
    - [RepositoryInfoClient] embeds the class itself.  The asynchronous
      collaborators (REST client, SOAP client, ...) live in an [Environment]
      record; every call that leaves the class is recorded in program order.

    Calls to [Logger] only produce diagnostics and are left out, except that
    the property reads performed while building a log line ([collection.name],
    [project.id]) are kept, since they throw on [undefined]. *)

From Stdlib Require Import ZArith List Bool Lia.
From Stdlib Require Import Strings.Ascii Strings.String.
Import ListNotations.

Open Scope string_scope.
Open Scope Z_scope.

(* ================================================================== *)
(** ** JavaScript primitives *)

Module Js.

(** Strings are sequences of characters.  The operations below only count
    characters and compare them with each other, so the width of a code unit
    plays no role. *)

(** A JavaScript variable declared [string] may still hold [undefined]. *)
Inductive value (A : Type) : Type :=
| undefined : value A
| defined : A -> value A.
Arguments undefined {A}.
Arguments defined {A} _.

(** Template-literal conversion [`${v}`]. *)
Definition toString (v : value string) : string :=
  match v with
  | undefined => "undefined"
  | defined s => s
  end.

(** Truthiness of a string: only the empty string is falsy. *)
Definition truthy (s : string) : bool :=
  match s with
  | EmptyString => false
  | String _ _ => true
  end.

Fixpoint take (n : nat) (s : string) : string :=
  match n, s with
  | S k, String c r => String c (take k r)
  | _, _ => EmptyString
  end.

Fixpoint drop (n : nat) (s : string) : string :=
  match n, s with
  | S k, String _ r => drop k r
  | _, _ => s
  end.

Definition len (s : string) : Z := Z.of_nat (String.length s).

(** Indices outside [0, length] are clamped, as [substring] does. *)
Definition clamp (s : string) (i : Z) : Z := Z.max 0 (Z.min i (len s)).

(** [s.substring(indexStart, indexEnd)]: both indices are clamped and swapped
    when out of order. *)
Definition substring (s : string) (indexStart indexEnd : Z) : string :=
  let a := clamp s indexStart in
  let b := clamp s indexEnd in
  let lo := Z.min a b in
  let hi := Z.max a b in
  take (Z.to_nat (hi - lo)) (drop (Z.to_nat lo) s).

(** [s.substring(indexStart)]: up to the end of the string. *)
Definition substringFrom (s : string) (indexStart : Z) : string :=
  substring s indexStart (len s).

(** [s.charAt(pos)]: a one-character string, or the empty string out of range. *)
Definition charAt (s : string) (pos : Z) : string :=
  if pos <? 0 then EmptyString
  else match String.get (Z.to_nat pos) s with
       | Some c => String c EmptyString
       | None => EmptyString
       end.

(** Scan from the left, remembering the last position where [pat] starts. *)
Fixpoint lastIndexOfFrom (pat s : string) (pos found : Z) : Z :=
  let found' := if String.prefix pat s then pos else found in
  match s with
  | EmptyString => found'
  | String _ r => lastIndexOfFrom pat r (pos + 1) found'
  end.

(** [s.lastIndexOf(pat)]: [-1] when [pat] does not occur. *)
Definition lastIndexOf (s pat : string) : Z := lastIndexOfFrom pat s 0 (-1).

(** Scan from the left, stopping at the first position where [pat] starts. *)
Fixpoint indexOfFrom (pat s : string) (pos : Z) : Z :=
  if String.prefix pat s then pos
  else match s with
       | EmptyString => -1
       | String _ r => indexOfFrom pat r (pos + 1)
       end.

(** [s.indexOf(pat)]: [-1] when [pat] does not occur. *)
Definition indexOf (s pat : string) : Z := indexOfFrom pat s 0.

(** Arrays: a list of slots, a hole being [undefined]. *)
Definition array (A : Type) : Type := list (value A).

(** [a[i]]: reading a hole or past the end gives [undefined]. *)
Fixpoint get {A} (a : array A) (i : nat) : value A :=
  match a, i with
  | [], _ => undefined
  | x :: _, O => x
  | _ :: r, S k => get r k
  end.

(** [a[i] = v]: writing past the end extends the array with holes. *)
Fixpoint set {A} (a : array A) (i : nat) (v : A) : array A :=
  match i, a with
  | O, [] => [defined v]
  | O, _ :: r => defined v :: r
  | S k, [] => undefined :: set [] k v
  | S k, x :: r => x :: set r k v
  end.

(** A thrown value: an [Error] object, with the [statusCode] property the
    HTTP clients attach to their failures. *)
Record ErrorObject : Type := {
  statusCode : value Z;
  message : string
}.

Definition new_Error (msg : string) : ErrorObject :=
  {| statusCode := undefined; message := msg |}.

(** Reading a property of [undefined]. *)
Definition TypeError_property (prop : string) : ErrorObject :=
  new_Error ("Cannot read property '" ++ prop ++ "' of undefined").

(** How a call ends: it returns (a promise fulfils) or throws (a promise
    rejects). *)
Inductive Outcome (A : Type) : Type :=
| Returned : A -> Outcome A
| Thrown : ErrorObject -> Outcome A.
Arguments Returned {A} _.
Arguments Thrown {A} _.

End Js.

(* ================================================================== *)
(** ** The URL helpers of the class *)

Module UrlHelpers.
Import Js.

(** The [while] loop of [trimTrailingSeparators]: [lastIndex] walks down while
    the character before it is the separator. *)
Fixpoint trimLoop (uri : string) (lastIndex : nat) : nat :=
  match lastIndex with
  | O => O
  | S k =>
      if String.eqb (charAt uri (Z.of_nat lastIndex - 1)) (charAt "/" 0)
      then trimLoop uri k
      else lastIndex
  end.

Definition trimTrailingSeparators (uri : string) : string :=
  if truthy uri then
    let lastIndex := Z.of_nat (trimLoop uri (String.length uri)) in
    if lastIndex >=? 0 then substring uri 0 lastIndex else uri
  else uri.

Definition splitTfvcCollectionUrl (collectionUrl : string) : array string :=
  let result : array string := [undefined] in
  if negb (truthy collectionUrl) then result
  else
    let trimmedUrl := trimTrailingSeparators collectionUrl in
    let index := lastIndexOf trimmedUrl "/" in
    if index >=? 0 then
      let result := set result 0 (substring trimmedUrl 0 (index + 1)) in
      let result := set result 1 (substringFrom trimmedUrl (index + 1)) in
      result
    else
      let result := set result 0 collectionUrl in
      let result := set result 1 "" in
      result.

(** *** Vocabulary for stating what the decomposition does *)

(** [n] separators in a row. *)
Fixpoint separators (n : nat) : string :=
  match n with
  | O => EmptyString
  | S k => String "/" (separators k)
  end.

Definition isSeparator (c : ascii) : bool := Ascii.eqb c "/".

Fixpoint hasSeparator (s : string) : bool :=
  match s with
  | EmptyString => false
  | String c r => isSeparator c || hasSeparator r
  end.

Fixpoint lastChar (s : string) : option ascii :=
  match s with
  | EmptyString => None
  | String c EmptyString => Some c
  | String _ r => lastChar r
  end.

Definition endsWithSeparator (s : string) : bool :=
  match lastChar s with
  | Some c => isSeparator c
  | None => false
  end.

End UrlHelpers.

(* ================================================================== *)
(** ** Node's [url.resolve] *)

Module Node.
Import Js.

(** [url.resolve(from, to)] for a [from] without query or fragment and a [to]
    that is empty or a plain relative path without dot segments: the
    reference replaces everything after the last [/] of the base path
    (RFC 3986, 5.2.3), so [url.resolve("http://example.com/one", "two")] is
    ["http://example.com/two"].  An empty path after an authority is [/]. *)
Definition resolvePath (from to : string) : string :=
  let scheme := indexOf from "://" in
  let authority := if scheme <? 0 then 0 else scheme + 3 in
  let path := indexOf (substringFrom from authority) "/" in
  if path <? 0 then
    if scheme <? 0 then (if truthy to then to else from)
    else from ++ "/" ++ to
  else if truthy to then substring from 0 (lastIndexOf from "/" + 1) ++ to
  else from.

(** [url.resolve] insists on string arguments. *)
Definition resolve (from : value string) (to : string) : Outcome string :=
  match from with
  | undefined => Thrown (new_Error "Parameter 'url' must be a string, not undefined")
  | defined base => Returned (resolvePath base to)
  end.

End Node.

(* ================================================================== *)
(** ** The resolver *)

Module RepositoryInfoClient.
Import Js UrlHelpers.

(** [RepositoryType] is declared in [contexts/repositorycontext]; the resolver
    tests for [GIT], [TFVC] and [EXTERNAL], and [ANY] stands for any other
    member. *)
Inductive RepositoryType : Type := GIT | TFVC | ANY | EXTERNAL.

Definition RepositoryType_eqb (a b : RepositoryType) : bool :=
  match a, b with
  | GIT, GIT | TFVC, TFVC | ANY, ANY | EXTERNAL, EXTERNAL => true
  | _, _ => false
  end.

(** The part of [IRepositoryContext] the resolver reads and writes. *)
Record RepositoryContext : Type := {
  Type_ : RepositoryType;
  RemoteUrl : string;
  TeamProjectName : value string
}.

(** [TeamProjectCollection] and [TeamProject] of [vso-node-api], restricted to
    the fields that are read. *)
Record TeamProjectCollection : Type := {
  collection_id : string;
  collection_name : string;
  collection_url : string
}.

Record TeamProject : Type := {
  project_id : string;
  project_name : string;
  project_description : string;
  project_url : string
}.

(** The object literal built by [getTfvcRepoInfoBlob]. *)
Record ProjectBlob : Type := {
  pb_id : string;
  pb_name : string;
  pb_description : string;
  pb_url : string;
  pb_state : Z;
  pb_revision : Z
}.

Record CollectionBlob : Type := {
  cb_id : string;
  cb_name : string;
  cb_url : string
}.

Record RepositoryBlob : Type := {
  rb_id : string;
  rb_name : string;
  rb_url : value string;
  rb_project : ProjectBlob;
  rb_remoteUrl : value string
}.

Record TfvcRepoInfoBlob : Type := {
  blob_serverUrl : value string;
  blob_collection : CollectionBlob;
  blob_repository : RepositoryBlob
}.

(** What [new RepositoryInfo(...)] is given: a remote URL, the payload of
    [getVstsInfo] (kept as opaque text), or the TFVC blob. *)
Inductive RepositoryInfoArg : Type :=
| OfRemoteUrl (remoteUrl : string)
| OfVstsInfo (repoInfo : string)
| OfTfvcBlob (repoInfo : TfvcRepoInfoBlob).

Inductive RepositoryInfo : Type :=
| new_RepositoryInfo (arg : RepositoryInfoArg).

(** The calls that leave the class, with their arguments. *)
Inductive Call : Type :=
| TeamServicesApi_getVstsInfo (remoteUrl : string)
| TeamServicesApi_validateTfvcCollectionUrl (serverUrl : string)
| CoreApiClient_GetProjectCollection (serverUrl collectionName : value string)
| TfsCatalogSoapClient_GetProjectCollection (serverUrl collectionName : value string)
| CoreApiClient_GetTeamProject (remoteUrl : string) (teamProjectName : value string)
| url_resolve (from : value string) (to : string).

(** The wire protocol behind a call: [CoreApiClient] and [TeamServicesApi]
    speak REST, [TfsCatalogSoapClient] speaks SOAP; [url.resolve] is local. *)
Inductive Protocol : Type := REST | SOAP.

Definition protocolOf (c : Call) : option Protocol :=
  match c with
  | TeamServicesApi_getVstsInfo _ => Some REST
  | TeamServicesApi_validateTfvcCollectionUrl _ => Some REST
  | CoreApiClient_GetProjectCollection _ _ => Some REST
  | TfsCatalogSoapClient_GetProjectCollection _ _ => Some SOAP
  | CoreApiClient_GetTeamProject _ _ => Some REST
  | url_resolve _ _ => None
  end.

Definition isValidation (c : Call) : bool :=
  match c with
  | TeamServicesApi_validateTfvcCollectionUrl _ => true
  | _ => false
  end.

Definition isCollectionFetch (c : Call) : bool :=
  match c with
  | CoreApiClient_GetProjectCollection _ _ => true
  | TfsCatalogSoapClient_GetProjectCollection _ _ => true
  | _ => false
  end.

Definition isProjectFetch (c : Call) : bool :=
  match c with
  | CoreApiClient_GetTeamProject _ _ => true
  | _ => false
  end.

(** Everything the class imports: helpers, string resources, [url.resolve]
    and the answers of the remote clients.  Within one resolution a client
    answers a given request the same way each time. *)
Record Environment : Type := {
  IsTeamFoundationServicesRepo : string -> bool;
  Account : RepositoryInfo -> string;
  UnableToValidateTeamServicesTfvcRepository : string;
  UnableToValidateTfvcRepositoryWithDefaultCollection : string;
  resolve : value string -> string -> Outcome string;
  getVstsInfo : string -> Outcome string;
  validateCollectionUrl : string -> Outcome unit;
  restGetProjectCollection :
    value string -> value string -> Outcome (value TeamProjectCollection);
  soapGetProjectCollection :
    value string -> value string -> Outcome (value TeamProjectCollection);
  restGetTeamProject :
    string -> value string -> Outcome (value TeamProject)
}.

(** The state a resolution runs in: the caller's context object, which the
    resolver holds by reference, and the calls made so far. *)
Record State : Type := {
  repoContext : RepositoryContext;
  calls : list Call
}.

Definition Async (A : Type) : Type := State -> Outcome A * State.

Definition ret {A} (a : A) : Async A := fun s => (Returned a, s).

Definition throw {A} (e : ErrorObject) : Async A := fun s => (Thrown e, s).

Definition bind {A B} (m : Async A) (k : A -> Async B) : Async B :=
  fun s =>
    match m s with
    | (Returned a, s') => k a s'
    | (Thrown e, s') => (Thrown e, s')
    end.

Definition tryCatch {A} (m : Async A) (handler : ErrorObject -> Async A) : Async A :=
  fun s =>
    match m s with
    | (Returned a, s') => (Returned a, s')
    | (Thrown e, s') => handler e s'
    end.

Notation "x <- m ;; k" := (bind m (fun x => k))
  (at level 61, m at next level, right associativity).

(** The state after one more call. *)
Definition after (st : State) (c : Call) : State :=
  {| repoContext := repoContext st; calls := calls st ++ [c] |}.

(** Perform a call: record it, then continue with its outcome. *)
Definition perform {A} (c : Call) (answer : Outcome A) : Async A :=
  fun s => (answer, after s c).

Definition this_repoContext : Async RepositoryContext :=
  fun s => (Returned (repoContext s), s).

(** [tfvcContext.RemoteUrl = remoteUrl] *)
Definition set_RemoteUrl (remoteUrl : string) : Async unit :=
  fun s =>
    (Returned tt,
     {| repoContext := {| Type_ := Type_ (repoContext s);
                          RemoteUrl := remoteUrl;
                          TeamProjectName := TeamProjectName (repoContext s) |};
        calls := calls s |}).

(** [err.statusCode === 404] *)
Definition statusCode_is_404 (err : ErrorObject) : bool :=
  match statusCode err with
  | defined n => n =? 404
  | undefined => false
  end.

Section Resolver.

Variable env : Environment.

Definition validateTfvcCollectionUrl (serverUrl : string) : Async bool :=
  tryCatch
    (_ <- perform (TeamServicesApi_validateTfvcCollectionUrl serverUrl)
                  (validateCollectionUrl env serverUrl) ;;
     ret true)
    (fun err => if statusCode_is_404 err then ret false else throw err).

Definition getProjectFromServer (remoteUrl : string) (teamProjectName : value string)
  : Async (value TeamProject) :=
  perform (CoreApiClient_GetTeamProject remoteUrl teamProjectName)
          (restGetTeamProject env remoteUrl teamProjectName).

Definition getTfvcRepoInfoBlob (serverUrl : value string)
    (collectionId collectionName collectionUrl : string)
    (projectId projectName projectDesc projectUrl : string) : TfvcRepoInfoBlob :=
  {| blob_serverUrl := serverUrl;
     blob_collection :=
       {| cb_id := collectionId; cb_name := collectionName; cb_url := collectionUrl |};
     blob_repository :=
       {| rb_id := "00000000-0000-0000-0000-000000000000";
          rb_name := "NoNameTfvcRepository";
          rb_url := serverUrl;
          rb_project :=
            {| pb_id := projectId;
               pb_name := projectName;
               pb_description := projectDesc;
               pb_url := projectUrl;
               pb_state := 1;
               pb_revision := 15 |};
          rb_remoteUrl := serverUrl |} |}.

(** Lines 47-93: find the server URL and the collection name. *)
Definition resolveAddress (isTeamServices : bool) (repositoryInfo : RepositoryInfo)
  : Async (value string * value string) :=
  if isTeamServices then
    let collectionName := Account env repositoryInfo in
    let serverUrl := "https://" ++ Account env repositoryInfo ++ ".visualstudio.com/" in
    valid <- validateTfvcCollectionUrl serverUrl ;;
    if negb valid then
      throw (new_Error (UnableToValidateTeamServicesTfvcRepository env
                        ++ " Collection name: '" ++ collectionName
                        ++ "', Url: '" ++ serverUrl ++ "'"))
    else ret (defined serverUrl, defined collectionName)
  else
    ctx <- this_repoContext ;;
    let serverUrl := RemoteUrl ctx in
    valid <- validateTfvcCollectionUrl serverUrl ;;
    if valid then
      let parts := splitTfvcCollectionUrl serverUrl in
      ret (get parts 0, get parts 1)
    else
      let collectionName := "DefaultCollection" in
      remoteUrl <- perform (url_resolve (defined serverUrl) collectionName)
                           (resolve env (defined serverUrl) collectionName) ;;
      valid <- validateTfvcCollectionUrl remoteUrl ;;
      if negb valid then
        throw (new_Error (UnableToValidateTfvcRepositoryWithDefaultCollection env))
      else
        ctx <- this_repoContext ;;
        _ <- (if RepositoryType_eqb (Type_ ctx) TFVC
              then set_RemoteUrl remoteUrl
              else ret tt) ;;
        ret (defined serverUrl, defined collectionName).

(** Lines 95-112: fetch the project collection over REST or SOAP. *)
Definition fetchCollection (isTeamServices : bool) (serverUrl collectionName : value string)
  : Async (value TeamProjectCollection) :=
  if isTeamServices then
    perform (CoreApiClient_GetProjectCollection serverUrl collectionName)
            (restGetProjectCollection env serverUrl collectionName)
  else
    collection <- perform (TfsCatalogSoapClient_GetProjectCollection serverUrl collectionName)
                          (soapGetProjectCollection env serverUrl collectionName) ;;
    match collection with
    | undefined =>
        throw (new_Error ("Using SOAP, could not find a project collection object for "
                          ++ toString collectionName ++ " at " ++ toString serverUrl))
    | defined _ => ret collection
    end.

(** Reading a property of an object that may be [undefined]. *)
Definition property {A} (prop : string) (o : value A) : Async A :=
  match o with
  | undefined => throw (TypeError_property prop)
  | defined a => ret a
  end.

(** Lines 113-130: fetch the team project and build the result. *)
Definition fetchProjectAndAssemble (isTeamServices : bool) (teamProjectName : value string)
    (serverUrl : value string) (maybeCollection : value TeamProjectCollection)
  : Async (value RepositoryInfo) :=
  collection <- property "name" maybeCollection ;;
  resolvedRemoteUrl <-
    (let to := if isTeamServices then "" else collection_name collection in
     perform (url_resolve serverUrl to) (resolve env serverUrl to)) ;;
  maybeProject <- getProjectFromServer resolvedRemoteUrl teamProjectName ;;
  project <- property "id" maybeProject ;;
  let repoInfo :=
    getTfvcRepoInfoBlob serverUrl
      (collection_id collection) (collection_name collection) (collection_url collection)
      (project_id project) (project_name project)
      (project_description project) (project_url project) in
  ret (defined (new_RepositoryInfo (OfTfvcBlob repoInfo))).

Definition GetRepositoryInfo : Async (value RepositoryInfo) :=
  ctx <- this_repoContext ;;
  if RepositoryType_eqb (Type_ ctx) GIT then
    repoInfo <- perform (TeamServicesApi_getVstsInfo (RemoteUrl ctx))
                        (getVstsInfo env (RemoteUrl ctx)) ;;
    ret (defined (new_RepositoryInfo (OfVstsInfo repoInfo)))
  else if RepositoryType_eqb (Type_ ctx) TFVC || RepositoryType_eqb (Type_ ctx) EXTERNAL then
    let teamProjectName := TeamProjectName ctx in
    let repositoryInfo := new_RepositoryInfo (OfRemoteUrl (RemoteUrl ctx)) in
    let isTeamServices := IsTeamFoundationServicesRepo env (RemoteUrl ctx) in
    address <- resolveAddress isTeamServices repositoryInfo ;;
    let serverUrl := fst address in
    let collectionName := snd address in
    maybeCollection <- fetchCollection isTeamServices serverUrl collectionName ;;
    fetchProjectAndAssemble isTeamServices teamProjectName serverUrl maybeCollection
  else ret undefined.

(** One resolution for a caller holding [ctx]. *)
Definition resolution (ctx : RepositoryContext) : Outcome (value RepositoryInfo) * State :=
  GetRepositoryInfo {| repoContext := ctx; calls := [] |}.

End Resolver.

(** *** Vocabulary for stating what a resolution does *)

(** The call that fetches the collection, by branch. *)
Definition collectionFetch (isTeamServices : bool) (serverUrl collectionName : value string)
  : Call :=
  if isTeamServices
  then CoreApiClient_GetProjectCollection serverUrl collectionName
  else TfsCatalogSoapClient_GetProjectCollection serverUrl collectionName.

Definition isFetch (c : Call) : bool := isCollectionFetch c || isProjectFetch c.

(** The context with its remote URL replaced. *)
Definition withRemoteUrl (ctx : RepositoryContext) (remoteUrl : string) : RepositoryContext :=
  {| Type_ := Type_ ctx; RemoteUrl := remoteUrl; TeamProjectName := TeamProjectName ctx |}.

(** The hosted server URL built from the account name. *)
Definition hostedServerUrl (account : string) : string :=
  "https://" ++ account ++ ".visualstudio.com/".

(** *** Sample collaborators

    Stand-ins for the remote clients, used to run the resolver on concrete
    contexts. *)

Definition notFound : ErrorObject :=
  {| statusCode := defined 404; message := "Failed Request: Not Found(404)" |}.

Definition sampleCollection (name : value string) : TeamProjectCollection :=
  {| collection_id := "c0ffee00-0000-0000-0000-000000000001";
     collection_name := toString name;
     collection_url := "https://tfsserver/tfs/_apis/projectCollections/1" |}.

Definition sampleProject (name : value string) : TeamProject :=
  {| project_id := "c0ffee00-0000-0000-0000-000000000002";
     project_name := toString name;
     project_description := "";
     project_url := "https://tfsserver/tfs/_apis/projects/2" |}.

(** The account is the first label of the host name. *)
Definition sampleAccount (info : RepositoryInfo) : string :=
  match info with
  | new_RepositoryInfo (OfRemoteUrl u) =>
      let host := substringFrom u (indexOf u "://" + 3) in
      substring host 0 (indexOf host ".")
  | _ => ""
  end.

(** A server on which exactly the URLs accepted by [valid] answer as
    collections; every other URL answers 404. *)
Definition sampleEnv (valid : string -> bool) : Environment :=
  {| IsTeamFoundationServicesRepo := fun u => 0 <=? indexOf u ".visualstudio.com";
     Account := sampleAccount;
     UnableToValidateTeamServicesTfvcRepository :=
       "Unable to validate the Team Services TFVC repository.";
     UnableToValidateTfvcRepositoryWithDefaultCollection :=
       "Unable to validate the TFVC repository with DefaultCollection.";
     resolve := Node.resolve;
     getVstsInfo := fun _ => Returned "{}";
     validateCollectionUrl := fun u => if valid u then Returned tt else Thrown notFound;
     restGetProjectCollection := fun _ name => Returned (defined (sampleCollection name));
     soapGetProjectCollection := fun _ name => Returned (defined (sampleCollection name));
     restGetTeamProject := fun _ name => Returned (defined (sampleProject name)) |}.

(** The same server, whose SOAP catalog knows no collection. *)
Definition sampleEnvNoCatalog (valid : string -> bool) : Environment :=
  {| IsTeamFoundationServicesRepo := IsTeamFoundationServicesRepo (sampleEnv valid);
     Account := Account (sampleEnv valid);
     UnableToValidateTeamServicesTfvcRepository :=
       UnableToValidateTeamServicesTfvcRepository (sampleEnv valid);
     UnableToValidateTfvcRepositoryWithDefaultCollection :=
       UnableToValidateTfvcRepositoryWithDefaultCollection (sampleEnv valid);
     resolve := Node.resolve;
     getVstsInfo := getVstsInfo (sampleEnv valid);
     validateCollectionUrl := validateCollectionUrl (sampleEnv valid);
     restGetProjectCollection := restGetProjectCollection (sampleEnv valid);
     soapGetProjectCollection := fun _ _ => Returned undefined;
     restGetTeamProject := restGetTeamProject (sampleEnv valid) |}.

Definition sampleContext (type : RepositoryType) (remoteUrl : string) : RepositoryContext :=
  {| Type_ := type; RemoteUrl := remoteUrl; TeamProjectName := defined "MyProject" |}.

(** Only the literal URL is refused. *)
Definition allBut (literal : string) (u : string) : bool := negb (String.eqb u literal).

(** The answer of the collection client of the branch. *)
Definition collectionAnswer (env : Environment) (isTeamServices : bool)
    (serverUrl collectionName : value string) : Outcome (value TeamProjectCollection) :=
  if isTeamServices
  then restGetProjectCollection env serverUrl collectionName
  else soapGetProjectCollection env serverUrl collectionName.

Definition serverError : ErrorObject :=
  {| statusCode := defined 500; message := "Failed Request: Internal Server Error(500)" |}.

Definition networkError : ErrorObject :=
  {| statusCode := undefined; message := "connect ECONNREFUSED" |}.

(** A server whose validation and collection fetches answer as given; the
    project fetch always succeeds. *)
Definition sampleEnvAnswering (validation : string -> Outcome unit)
    (collection : Outcome (value TeamProjectCollection)) : Environment :=
  {| IsTeamFoundationServicesRepo := IsTeamFoundationServicesRepo (sampleEnv (fun _ => true));
     Account := sampleAccount;
     UnableToValidateTeamServicesTfvcRepository :=
       UnableToValidateTeamServicesTfvcRepository (sampleEnv (fun _ => true));
     UnableToValidateTfvcRepositoryWithDefaultCollection :=
       UnableToValidateTfvcRepositoryWithDefaultCollection (sampleEnv (fun _ => true));
     resolve := Node.resolve;
     getVstsInfo := fun _ => Returned "{}";
     validateCollectionUrl := validation;
     restGetProjectCollection := fun _ _ => collection;
     soapGetProjectCollection := fun _ _ => collection;
     restGetTeamProject := fun _ name => Returned (defined (sampleProject name)) |}.

(** Validation that refuses [literal] with 404 and accepts anything else. *)
Definition refusing (literal : string) (u : string) : Outcome unit :=
  if String.eqb u literal then Thrown notFound else Returned tt.

End RepositoryInfoClient.

(* ================================================================== *)
(** * Properties of the URL decomposition *)

Module Decomposition.
Import Js UrlHelpers.

Lemma length_app (a b : string) :
  String.length (a ++ b) = (String.length a + String.length b)%nat.
Proof. induction a as [|c a IH]; simpl; [reflexivity | now rewrite IH]. Qed.

Lemma app_assoc (a b c : string) : (a ++ b) ++ c = a ++ (b ++ c).
Proof. induction a as [|x a IH]; simpl; [reflexivity | now rewrite IH]. Qed.

Lemma app_empty_r (a : string) : a ++ "" = a.
Proof. induction a as [|x a IH]; simpl; [reflexivity | now rewrite IH]. Qed.

Lemma take_app (a b : string) : take (String.length a) (a ++ b) = a.
Proof. induction a as [|x a IH]; simpl; [now destruct b | now rewrite IH]. Qed.

Lemma drop_app (a b : string) : drop (String.length a) (a ++ b) = b.
Proof. induction a as [|x a IH]; simpl; [now destruct b | exact IH]. Qed.

Lemma take_all (a : string) : take (String.length a) a = a.
Proof. induction a as [|x a IH]; simpl; [reflexivity | now rewrite IH]. Qed.

Lemma drop_0 (a : string) : drop 0 a = a.
Proof. now destruct a. Qed.

Lemma len_app (a b : string) : len (a ++ b) = len a + len b.
Proof. unfold len. rewrite length_app. lia. Qed.

Lemma len_nonneg (a : string) : 0 <= len a.
Proof. unfold len. lia. Qed.

(** [substring(0, a.length)] of [a ++ b] is [a]. *)
Lemma substring_head (a b : string) : substring (a ++ b) 0 (len a) = a.
Proof.
  unfold substring, clamp. rewrite len_app.
  pose proof (len_nonneg a) as Ha. pose proof (len_nonneg b) as Hb.
  replace (Z.max 0 (Z.min 0 (len a + len b))) with 0 by lia.
  replace (Z.max 0 (Z.min (len a) (len a + len b))) with (len a) by lia.
  replace (Z.min 0 (len a)) with 0 by lia.
  replace (Z.max 0 (len a) - 0) with (len a) by lia.
  unfold len. rewrite Nat2Z.id. simpl Z.to_nat. rewrite drop_0.
  apply take_app.
Qed.

(** [substring(a.length)] of [a ++ b] is [b]. *)
Lemma substringFrom_tail (a b : string) : substringFrom (a ++ b) (len a) = b.
Proof.
  unfold substringFrom, substring, clamp. rewrite len_app.
  pose proof (len_nonneg a) as Ha. pose proof (len_nonneg b) as Hb.
  replace (Z.max 0 (Z.min (len a) (len a + len b))) with (len a) by lia.
  replace (Z.max 0 (Z.min (len a + len b) (len a + len b))) with (len a + len b) by lia.
  replace (Z.min (len a) (len a + len b)) with (len a) by lia.
  replace (Z.max (len a) (len a + len b) - len a) with (len b) by lia.
  unfold len. rewrite !Nat2Z.id. rewrite drop_app. apply take_all.
Qed.

(** The character read by the loop test, [uri.charAt(lastIndex - 1)]. *)
Lemma charAt_before (uri : string) (k : nat) :
  charAt uri (Z.of_nat (S k) - 1) =
  match String.get k uri with
  | Some c => String c EmptyString
  | None => EmptyString
  end.
Proof.
  unfold charAt.
  replace (Z.of_nat (S k) - 1) with (Z.of_nat k) by lia.
  destruct (Z.ltb_spec (Z.of_nat k) 0) as [H|H]; [lia|].
  now rewrite Nat2Z.id.
Qed.

Lemma get_after (a : string) (c : ascii) (b : string) :
  String.get (String.length a) (a ++ String c b) = Some c.
Proof. induction a as [|x a IH]; simpl; [reflexivity | exact IH]. Qed.

Lemma separators_snoc (n : nat) : separators n ++ "/" = separators (S n).
Proof. induction n as [|n IH]; simpl; [reflexivity | now rewrite IH]. Qed.

(** The loop walks back over a run of trailing separators. *)
Lemma trimLoop_separators (t : string) (n : nat) (rest : string) :
  trimLoop (t ++ separators n ++ rest) (String.length t + n) =
  trimLoop (t ++ separators n ++ rest) (String.length t).
Proof.
  revert rest. induction n as [|n IH]; intros rest.
  - now rewrite Nat.add_0_r.
  - rewrite Nat.add_succ_r.
    cbn [trimLoop]. rewrite charAt_before.
    rewrite <- separators_snoc.
    rewrite (app_assoc (separators n) "/" rest).
    rewrite <- (app_assoc t (separators n) ("/" ++ rest)).
    replace (String.length t + n)%nat with (String.length (t ++ separators n)).
    2:{ rewrite length_app. f_equal. clear. induction n; simpl; congruence. }
    simpl append at 2.
    rewrite get_after. simpl.
    rewrite length_app.
    replace (String.length (separators n)) with n
      by (clear; induction n; simpl; congruence).
    rewrite app_assoc.
    replace (String "/" rest) with ("/" ++ rest) by reflexivity.
    apply IH.
Qed.

Lemma length_separators (n : nat) : String.length (separators n) = n.
Proof. induction n; simpl; congruence. Qed.

(** A non-empty string is a prefix followed by its last character. *)
Lemma lastChar_snoc (t : string) :
  t <> "" -> exists p c, t = p ++ String c "" /\ lastChar t = Some c.
Proof.
  induction t as [|x t IH]; intros Hne; [congruence|].
  destruct t as [|y t].
  - exists "", x. split; reflexivity.
  - destruct IH as (p & c & Hp & Hc); [discriminate|].
    exists (String x p), c. split.
    + simpl. now rewrite <- Hp.
    + exact Hc.
Qed.

(** The loop stops at once on a string that does not end with a separator. *)
Lemma trimLoop_stops (t rest : string) :
  endsWithSeparator t = false ->
  trimLoop (t ++ rest) (String.length t) = String.length t.
Proof.
  intros Hend.
  destruct t as [|x t'] eqn:Et; [reflexivity|].
  destruct (lastChar_snoc (String x t')) as (p & c & Hp & Hc); [discriminate|].
  unfold endsWithSeparator in Hend. rewrite Hc in Hend.
  rewrite Hp, length_app. simpl String.length. rewrite Nat.add_1_r.
  cbn [trimLoop]. rewrite charAt_before, app_assoc. simpl append at 2.
  rewrite get_after.
  replace (charAt "/" 0) with "/" by reflexivity.
  destruct (String.eqb_spec (String c "") "/") as [E|E]; [|reflexivity].
  inversion E; subst c. discriminate.
Qed.

(** Every string is a string not ending with a separator, followed by
    separators. *)
Lemma strip_exists (s : string) :
  exists t n, s = t ++ separators n /\ endsWithSeparator t = false.
Proof.
  induction s as [|x s IH].
  - exists "", 0%nat. split; reflexivity.
  - destruct IH as (t & n & Hs & Ht).
    destruct t as [|y t].
    + destruct (isSeparator x) eqn:Ex.
      * exists "", (S n). split; [|reflexivity].
        apply Ascii.eqb_eq in Ex. subst x. simpl in *. now rewrite Hs.
      * exists (String x ""), n. split.
        -- simpl in *. now rewrite Hs.
        -- unfold endsWithSeparator. simpl. exact Ex.
    + exists (String x (String y t)), n. split.
      * simpl in *. now rewrite Hs.
      * exact Ht.
Qed.

(** [trimTrailingSeparators] removes exactly the trailing separators. *)
Lemma trimTrailingSeparators_strips (t : string) (n : nat) :
  endsWithSeparator t = false ->
  trimTrailingSeparators (t ++ separators n) = t.
Proof.
  intros Hend. unfold trimTrailingSeparators.
  destruct (truthy (t ++ separators n)) eqn:Etr.
  - destruct (Z.geb_spec (Z.of_nat (trimLoop (t ++ separators n)
                                      (String.length (t ++ separators n)))) 0) as [_|H];
      [|lia].
    rewrite length_app, length_separators.
    pose proof (trimLoop_separators t n "") as Hloop.
    rewrite app_empty_r in Hloop. rewrite Hloop.
    rewrite trimLoop_stops by exact Hend.
    apply substring_head.
  - destruct t; [|discriminate]. destruct n; [reflexivity|discriminate].
Qed.

(** [lastIndexOf("/")] finds nothing in a string without separator. *)
Lemma lastIndexOfFrom_none (s : string) (pos found : Z) :
  hasSeparator s = false -> lastIndexOfFrom "/" s pos found = found.
Proof.
  revert pos found. induction s as [|x s IH]; intros pos found Hs; [reflexivity|].
  simpl in Hs. apply orb_false_iff in Hs as [Hx Hs].
  cbn [lastIndexOfFrom String.prefix].
  destruct (ascii_dec "/" x) as [E|E].
  - subst x. discriminate.
  - now apply IH.
Qed.

(** [lastIndexOf("/")] finds the separator that nothing follows. *)
Lemma lastIndexOfFrom_last (p name : string) (pos found : Z) :
  hasSeparator name = false ->
  lastIndexOfFrom "/" (p ++ String "/" name) pos found = pos + len p.
Proof.
  intros Hname. revert pos found.
  induction p as [|x p IH]; intros pos found.
  - cbn [append lastIndexOfFrom String.prefix].
    destruct (ascii_dec "/" "/") as [_|E]; [|congruence].
    replace (String.prefix "" name) with true by now destruct name.
    rewrite lastIndexOfFrom_none by exact Hname. unfold len. simpl. lia.
  - cbn [append lastIndexOfFrom]. rewrite IH. unfold len. simpl String.length. lia.
Qed.

(** A string with a separator splits at its last one. *)
Lemma last_separator_exists (s : string) :
  hasSeparator s = true ->
  exists p name, s = p ++ String "/" name /\ hasSeparator name = false.
Proof.
  induction s as [|x s IH]; intros Hs; [discriminate|].
  destruct (hasSeparator s) eqn:Es.
  - destruct IH as (p & name & Hp & Hn); [reflexivity|].
    exists (String x p), name. split; [simpl; now rewrite Hp | exact Hn].
  - simpl in Hs. rewrite Es, orb_false_r in Hs. apply Ascii.eqb_eq in Hs. subst x.
    exists "", s. split; [reflexivity | exact Es].
Qed.

(** What [splitTfvcCollectionUrl] returns once the trimmed URL is known. *)
Lemma split_of_trimmed (collectionUrl stripped : string) :
  collectionUrl <> "" ->
  trimTrailingSeparators collectionUrl = stripped ->
  (forall p name,
      stripped = p ++ String "/" name -> hasSeparator name = false ->
      splitTfvcCollectionUrl collectionUrl = [defined (p ++ "/"); defined name]) /\
  (hasSeparator stripped = false ->
   splitTfvcCollectionUrl collectionUrl = [defined collectionUrl; defined ""]).
Proof.
  intros Hne Htrim. unfold splitTfvcCollectionUrl.
  replace (truthy collectionUrl) with true
    by (destruct collectionUrl; [congruence | reflexivity]).
  cbn [negb]. rewrite Htrim. unfold lastIndexOf. split.
  - intros p name Hs Hname. rewrite Hs.
    rewrite lastIndexOfFrom_last by exact Hname.
    pose proof (len_nonneg p) as Hp.
    destruct (Z.geb_spec (0 + len p) 0) as [_|H]; [|lia].
    replace (0 + len p + 1) with (len (p ++ "/")) by (rewrite len_app; reflexivity).
    replace (p ++ String "/" name) with ((p ++ "/") ++ name)
      by (rewrite app_assoc; reflexivity).
    now rewrite substring_head, substringFrom_tail.
  - intros Hnone. now rewrite lastIndexOfFrom_none by exact Hnone.
Qed.

(** A non-empty URL always decomposes into two strings; the second is empty
    when the trimmed URL has no separator. *)
Lemma split_of_nonempty (collectionUrl : string) :
  collectionUrl <> "" ->
  exists server name,
    splitTfvcCollectionUrl collectionUrl = [defined server; defined name] /\
    (hasSeparator (trimTrailingSeparators collectionUrl) = false -> name = "").
Proof.
  intros Hne.
  destruct (split_of_trimmed collectionUrl _ Hne eq_refl) as [Hsplit Hwhole].
  destruct (hasSeparator (trimTrailingSeparators collectionUrl)) eqn:Hsep.
  - destruct (last_separator_exists _ Hsep) as (p & name & Hs & Hname).
    exists (p ++ "/"), name. split; [now apply Hsplit | discriminate].
  - exists collectionUrl, "". split; [now apply Hwhole | reflexivity].
Qed.

(** C3.  For every non-empty URL, [splitTfvcCollectionUrl] strips all trailing
    separators and splits what is left at its last separator: the part after
    it is the collection name, the part up to and including it is the server
    URL.  When what is left has no separator, the server URL is the whole
    input and the collection name is the empty string. *)
Theorem splitTfvcCollectionUrl_decomposes (collectionUrl : string) :
  collectionUrl <> "" ->
  exists stripped n,
    collectionUrl = stripped ++ separators n /\
    endsWithSeparator stripped = false /\
    trimTrailingSeparators collectionUrl = stripped /\
    ((exists server name,
         stripped = server ++ name /\
         (exists p, server = p ++ "/") /\
         hasSeparator name = false /\
         splitTfvcCollectionUrl collectionUrl = [defined server; defined name])
     \/
     (hasSeparator stripped = false /\
      splitTfvcCollectionUrl collectionUrl = [defined collectionUrl; defined ""])).
Proof.
  intros Hne.
  destruct (strip_exists collectionUrl) as (stripped & n & Hurl & Hend).
  assert (Htrim : trimTrailingSeparators collectionUrl = stripped)
    by (rewrite Hurl; now apply trimTrailingSeparators_strips).
  exists stripped, n. repeat split; try assumption.
  destruct (split_of_trimmed collectionUrl stripped Hne Htrim) as [Hsplit Hwhole].
  destruct (hasSeparator stripped) eqn:Hsep.
  - left. destruct (last_separator_exists stripped Hsep) as (p & name & Hs & Hname).
    exists (p ++ "/"), name. repeat split.
    + rewrite app_assoc. exact Hs.
    + now exists p.
    + exact Hname.
    + now apply Hsplit.
  - right. split; [reflexivity | now apply Hwhole].
Qed.

Lemma splitTfvcCollectionUrl_decomposes_witness :
  "https://tfs/Coll//" <> "" /\
  exists stripped n,
    "https://tfs/Coll//" = stripped ++ separators n /\
    endsWithSeparator stripped = false /\
    trimTrailingSeparators "https://tfs/Coll//" = stripped /\
    ((exists server name,
         stripped = server ++ name /\
         (exists p, server = p ++ "/") /\
         hasSeparator name = false /\
         splitTfvcCollectionUrl "https://tfs/Coll//" = [defined server; defined name])
     \/
     (hasSeparator stripped = false /\
      splitTfvcCollectionUrl "https://tfs/Coll//"
      = [defined "https://tfs/Coll//"; defined ""])).
Proof.
  split; [discriminate|].
  apply (splitTfvcCollectionUrl_decomposes "https://tfs/Coll//"). discriminate.
Defined.

(** The two spellings of one collection URL decompose alike. *)
Example split_with_and_without_trailing_separator :
  splitTfvcCollectionUrl "https://tfs/Coll/" = [defined "https://tfs/"; defined "Coll"] /\
  splitTfvcCollectionUrl "https://tfs/Coll" = [defined "https://tfs/"; defined "Coll"].
Proof. split; reflexivity. Qed.

(** C9, as the code behaves.  Decomposing [https://tfs/] trims the trailing
    separator and splits at the last separator left, which is the second one
    of the scheme: the server URL is [https://] and the collection name is
    [tfs]. *)
Theorem split_server_root :
  splitTfvcCollectionUrl "https://tfs/" = [defined "https://"; defined "tfs"] /\
  get (splitTfvcCollectionUrl "https://tfs/") 0 = defined "https://" /\
  get (splitTfvcCollectionUrl "https://tfs/") 1 = defined "tfs".
Proof. repeat split; reflexivity. Qed.

(** C9, as claimed, fails: the collection name is not empty and the server URL
    is not the input. *)
Lemma split_server_root_not_unchanged :
  ~ (get (splitTfvcCollectionUrl "https://tfs/") 1 = defined "" /\
     get (splitTfvcCollectionUrl "https://tfs/") 0 = defined "https://tfs/").
Proof. intros [H _]. vm_compute in H. discriminate. Qed.

End Decomposition.

(* ================================================================== *)
(** * Properties of the resolver *)

Module Resolution.
Import Js UrlHelpers RepositoryInfoClient.

#[local] Opaque splitTfvcCollectionUrl.
#[local] Arguments statusCode_is_404 : simpl never.

Lemma statusCode_is_404_iff (err : ErrorObject) :
  statusCode_is_404 err = true <-> statusCode err = defined 404.
Proof.
  unfold statusCode_is_404. destruct (statusCode err) as [|n].
  - split; discriminate.
  - rewrite Z.eqb_eq. split; [congruence | now inversion 1].
Qed.

(** One run of [validateTfvcCollectionUrl], by the answer of the client. *)
Lemma validateTfvcCollectionUrl_run (env : Environment) (serverUrl : string) (st : State) :
  validateTfvcCollectionUrl env serverUrl st =
  (match validateCollectionUrl env serverUrl with
   | Returned _ => Returned true
   | Thrown err => if statusCode_is_404 err then Returned false else Thrown err
   end,
   after st (TeamServicesApi_validateTfvcCollectionUrl serverUrl)).
Proof.
  unfold validateTfvcCollectionUrl, tryCatch, bind, perform, ret, throw, after.
  destruct (validateCollectionUrl env serverUrl) as [[]|err]; [reflexivity|].
  now destruct (statusCode_is_404 err).
Qed.

(** C5.  [validateTfvcCollectionUrl] answers [false], without throwing, when
    the client fails with status 404; any other failure of the client is
    thrown again unchanged; and [false] is answered in no other case. *)
Theorem validateTfvcCollectionUrl_maps_404_only
    (env : Environment) (serverUrl : string) (st : State) :
  (forall err,
      validateCollectionUrl env serverUrl = Thrown err ->
      statusCode err = defined 404 ->
      fst (validateTfvcCollectionUrl env serverUrl st) = Returned false) /\
  (forall err,
      validateCollectionUrl env serverUrl = Thrown err ->
      statusCode err <> defined 404 ->
      fst (validateTfvcCollectionUrl env serverUrl st) = Thrown err) /\
  (fst (validateTfvcCollectionUrl env serverUrl st) = Returned false ->
   exists err,
     validateCollectionUrl env serverUrl = Thrown err /\ statusCode err = defined 404) /\
  (validateCollectionUrl env serverUrl = Returned tt ->
   fst (validateTfvcCollectionUrl env serverUrl st) = Returned true).
Proof.
  rewrite validateTfvcCollectionUrl_run. cbn [fst].
  repeat split.
  - intros err -> H404. apply statusCode_is_404_iff in H404. now rewrite H404.
  - intros err -> Hnot. destruct (statusCode_is_404 err) eqn:E; [|reflexivity].
    apply statusCode_is_404_iff in E. contradiction.
  - destruct (validateCollectionUrl env serverUrl) as [[]|err]; [discriminate|].
    destruct (statusCode_is_404 err) eqn:E; [|discriminate].
    intros _. exists err. split; [reflexivity | now apply statusCode_is_404_iff].
  - now intros ->.
Qed.

Lemma validateTfvcCollectionUrl_maps_404_only_witness :
  fst (validateTfvcCollectionUrl (sampleEnv (fun _ => false)) "https://tfsserver/tfs"
         {| repoContext := sampleContext TFVC "https://tfsserver/tfs"; calls := [] |})
  = Returned false.
Proof.
  apply (proj1 (validateTfvcCollectionUrl_maps_404_only
                  (sampleEnv (fun _ => false)) "https://tfsserver/tfs"
                  {| repoContext := sampleContext TFVC "https://tfsserver/tfs";
                     calls := [] |})
               notFound);
    reflexivity.
Defined.

(** *** The three stages of a TFVC resolution *)

Ltac unfold_async :=
  unfold bind, tryCatch, perform, ret, throw, this_repoContext, set_RemoteUrl, property.

(** For a TFVC or external context the resolver runs its three stages in
    sequence: address, collection, project. *)
Lemma resolution_stages (env : Environment) (ctx : RepositoryContext) :
  Type_ ctx = TFVC \/ Type_ ctx = EXTERNAL ->
  resolution env ctx =
  match resolveAddress env (IsTeamFoundationServicesRepo env (RemoteUrl ctx))
          (new_RepositoryInfo (OfRemoteUrl (RemoteUrl ctx)))
          {| repoContext := ctx; calls := [] |} with
  | (Returned address, st1) =>
      (maybeCollection <- fetchCollection env
                            (IsTeamFoundationServicesRepo env (RemoteUrl ctx))
                            (fst address) (snd address) ;;
       fetchProjectAndAssemble env (IsTeamFoundationServicesRepo env (RemoteUrl ctx))
         (TeamProjectName ctx) (fst address) maybeCollection) st1
  | (Thrown err, st1) => (Thrown err, st1)
  end.
Proof.
  intros [H|H]; unfold resolution, GetRepositoryInfo;
    unfold bind at 1; unfold this_repoContext; cbn [repoContext];
    rewrite H; reflexivity.
Qed.

(** The collection fetch makes one call, over REST when hosted and over SOAP
    otherwise, and leaves the context alone. *)
Lemma fetchCollection_state (env : Environment) (isTeamServices : bool)
    (serverUrl collectionName : value string) (st : State) :
  snd (fetchCollection env isTeamServices serverUrl collectionName st) =
  after st (collectionFetch isTeamServices serverUrl collectionName).
Proof.
  unfold fetchCollection, collectionFetch. destruct isTeamServices; unfold_async.
  - reflexivity.
  - destruct (soapGetProjectCollection env serverUrl collectionName) as [[|c]|err];
      reflexivity.
Qed.

(** Over SOAP a missing collection object is turned into an error. *)
Lemma fetchCollection_soap_absent (env : Environment)
    (serverUrl collectionName : value string) (st : State) :
  soapGetProjectCollection env serverUrl collectionName = Returned undefined ->
  fetchCollection env false serverUrl collectionName st =
  (Thrown (new_Error ("Using SOAP, could not find a project collection object for "
                      ++ toString collectionName ++ " at " ++ toString serverUrl)),
   after st (TfsCatalogSoapClient_GetProjectCollection serverUrl collectionName)).
Proof. intros H. unfold fetchCollection. unfold_async. now rewrite H. Qed.

(** The last stage calls [url.resolve], then the project fetch of
    [CoreApiClient], and nothing else; it leaves the context alone. *)
Lemma fetchProjectAndAssemble_state (env : Environment) (isTeamServices : bool)
    (teamProjectName serverUrl : value string)
    (maybeCollection : value TeamProjectCollection) (st : State) :
  exists more,
    snd (fetchProjectAndAssemble env isTeamServices teamProjectName serverUrl
           maybeCollection st)
    = {| repoContext := repoContext st; calls := calls st ++ more |} /\
    (more = [] \/
     (exists to, more = [url_resolve serverUrl to]) \/
     (exists to remoteUrl,
         more = [url_resolve serverUrl to;
                 CoreApiClient_GetTeamProject remoteUrl teamProjectName])) /\
    (forall info,
        fst (fetchProjectAndAssemble env isTeamServices teamProjectName serverUrl
               maybeCollection st) = Returned info ->
        exists to remoteUrl,
          more = [url_resolve serverUrl to;
                  CoreApiClient_GetTeamProject remoteUrl teamProjectName]).
Proof.
  unfold fetchProjectAndAssemble, getProjectFromServer. unfold_async.
  destruct maybeCollection as [|collection].
  { exists []. destruct st as [c l]. cbn. rewrite app_nil_r.
    repeat split; auto. intros ? H; discriminate H. }
  cbn.
  generalize (if isTeamServices then "" else collection_name collection) as to.
  intros to.
  destruct (resolve env serverUrl to) as [remoteUrl|err] eqn:Eres.
  2:{ exists [url_resolve serverUrl to]. cbn.
      split; [reflexivity | split; [right; left; eauto | intros ? H; discriminate H]]. }
  exists [url_resolve serverUrl to; CoreApiClient_GetTeamProject remoteUrl teamProjectName].
  unfold after. cbn [repoContext calls]. rewrite <- app_assoc. cbn [app].
  destruct (restGetTeamProject env remoteUrl teamProjectName) as [[|project]|err];
    cbn; (split; [reflexivity | split; [right; right; eauto | eauto]]).
Qed.


(** *** Address resolution, path by path *)

Lemma validate_true_inv (env : Environment) (serverUrl : string) (st : State) :
  fst (validateTfvcCollectionUrl env serverUrl st) = Returned true ->
  validateCollectionUrl env serverUrl = Returned tt.
Proof.
  rewrite validateTfvcCollectionUrl_run. cbn [fst].
  destruct (validateCollectionUrl env serverUrl) as [[]|err]; [reflexivity|].
  destruct (statusCode_is_404 err); discriminate.
Qed.

Lemma validate_false_inv (env : Environment) (serverUrl : string) (st : State) :
  fst (validateTfvcCollectionUrl env serverUrl st) = Returned false ->
  exists err,
    validateCollectionUrl env serverUrl = Thrown err /\ statusCode_is_404 err = true.
Proof.
  rewrite validateTfvcCollectionUrl_run. cbn [fst].
  destruct (validateCollectionUrl env serverUrl) as [[]|err]; [discriminate|].
  destruct (statusCode_is_404 err) eqn:E; [|discriminate].
  intros _. now exists err.
Qed.

(** Hosted URL: one validation of the URL built from the account name. *)
Lemma resolveAddress_hosted (env : Environment) (info : RepositoryInfo) (st : State) :
  resolveAddress env true info st =
  (match validateCollectionUrl env (hostedServerUrl (Account env info)) with
   | Returned _ =>
       Returned (defined (hostedServerUrl (Account env info)), defined (Account env info))
   | Thrown err =>
       if statusCode_is_404 err
       then Thrown (new_Error (UnableToValidateTeamServicesTfvcRepository env
                               ++ " Collection name: '" ++ Account env info
                               ++ "', Url: '" ++ hostedServerUrl (Account env info) ++ "'"))
       else Thrown err
   end,
   after st (TeamServicesApi_validateTfvcCollectionUrl (hostedServerUrl (Account env info)))).
Proof.
  unfold resolveAddress. unfold bind at 1.
  change ("https://" ++ Account env info ++ ".visualstudio.com/")
    with (hostedServerUrl (Account env info)).
  rewrite validateTfvcCollectionUrl_run.
  destruct (validateCollectionUrl env (hostedServerUrl (Account env info))) as [[]|err];
    [reflexivity|].
  destruct (statusCode_is_404 err); reflexivity.
Qed.

(** Server URL that validates as given: it is decomposed, and nothing else
    happens. *)
Lemma resolveAddress_literal (env : Environment) (info : RepositoryInfo) (st : State) :
  validateCollectionUrl env (RemoteUrl (repoContext st)) = Returned tt ->
  resolveAddress env false info st =
  (Returned (get (splitTfvcCollectionUrl (RemoteUrl (repoContext st))) 0,
             get (splitTfvcCollectionUrl (RemoteUrl (repoContext st))) 1),
   after st (TeamServicesApi_validateTfvcCollectionUrl (RemoteUrl (repoContext st)))).
Proof.
  intros Hvalid. unfold resolveAddress.
  unfold bind at 1. unfold this_repoContext. unfold bind at 1.
  rewrite validateTfvcCollectionUrl_run, Hvalid. reflexivity.
Qed.

(** Server URL refused as given, accepted with the default collection. *)
Lemma resolveAddress_default (env : Environment) (info : RepositoryInfo) (st : State)
    (err : ErrorObject) (candidate : string) :
  validateCollectionUrl env (RemoteUrl (repoContext st)) = Thrown err ->
  statusCode_is_404 err = true ->
  resolve env (defined (RemoteUrl (repoContext st))) "DefaultCollection" = Returned candidate ->
  validateCollectionUrl env candidate = Returned tt ->
  resolveAddress env false info st =
  (Returned (defined (RemoteUrl (repoContext st)), defined "DefaultCollection"),
   {| repoContext :=
        if RepositoryType_eqb (Type_ (repoContext st)) TFVC
        then withRemoteUrl (repoContext st) candidate
        else repoContext st;
      calls :=
        calls st ++
        [TeamServicesApi_validateTfvcCollectionUrl (RemoteUrl (repoContext st));
         url_resolve (defined (RemoteUrl (repoContext st))) "DefaultCollection";
         TeamServicesApi_validateTfvcCollectionUrl candidate] |}).
Proof.
  intros Hlit H404 Hres Hcand. unfold resolveAddress.
  unfold bind at 1. unfold this_repoContext. unfold bind at 1.
  rewrite validateTfvcCollectionUrl_run, Hlit, H404.
  unfold bind at 1. unfold perform at 1. cbn [repoContext after]. rewrite Hres.
  unfold bind at 1. rewrite validateTfvcCollectionUrl_run, Hcand.
  cbn [negb]. unfold_async. unfold after, withRemoteUrl.
  destruct st as [ctx made]. cbn [repoContext calls].
  destruct (RepositoryType_eqb (Type_ ctx) TFVC);
    cbn [repoContext calls]; rewrite <- !app_assoc; reflexivity.
Qed.

Ltac destruct_scrutinee :=
  match goal with
  | |- context [match ?x with _ => _ end] =>
      lazymatch x with
      | context [match _ with _ => _ end] => fail
      | _ => destruct x eqn:?
      end
  end.

(** Address resolution makes no fetch, and touches nothing but the remote URL
    of a TFVC context. *)
Lemma resolveAddress_frame (env : Environment) (isTeamServices : bool)
    (info : RepositoryInfo) (st : State) :
  exists more,
    calls (snd (resolveAddress env isTeamServices info st)) = (calls st ++ more)%list /\
    filter isFetch more = [] /\
    (repoContext (snd (resolveAddress env isTeamServices info st)) = repoContext st \/
     Type_ (repoContext st) = TFVC /\
     exists candidate,
       repoContext (snd (resolveAddress env isTeamServices info st))
       = withRemoteUrl (repoContext st) candidate /\
       In (TeamServicesApi_validateTfvcCollectionUrl candidate) more).
Proof.
  destruct st as [ctx made].
  unfold resolveAddress, validateTfvcCollectionUrl. unfold_async. unfold after.
  cbn [repoContext calls].
  repeat (destruct_scrutinee; cbn [repoContext calls negb fst snd]);
    rewrite <- ?app_assoc; cbn [app];
    eexists; (split; [reflexivity|]); (split; [reflexivity|]);
    try (left; reflexivity).
  right. split.
  - destruct (Type_ ctx); try discriminate; reflexivity.
  - eexists. split; [reflexivity|]. cbn. auto.
Qed.

(** *** The two fetches *)

(** After the address is known: the collection fetch, then at most
    [url.resolve] and the project fetch. *)
Lemma fetch_stages_state (env : Environment) (isTeamServices : bool)
    (teamProjectName serverUrl collectionName : value string) (st : State) :
  exists more,
    snd ((maybeCollection <- fetchCollection env isTeamServices serverUrl collectionName ;;
          fetchProjectAndAssemble env isTeamServices teamProjectName serverUrl
            maybeCollection) st)
    = {| repoContext := repoContext st;
         calls := calls st
                  ++ collectionFetch isTeamServices serverUrl collectionName :: more |} /\
    (more = [] \/
     (exists to, more = [url_resolve serverUrl to]) \/
     (exists to remoteUrl,
         more = [url_resolve serverUrl to;
                 CoreApiClient_GetTeamProject remoteUrl teamProjectName])) /\
    (forall info,
        fst ((maybeCollection <- fetchCollection env isTeamServices serverUrl collectionName ;;
              fetchProjectAndAssemble env isTeamServices teamProjectName serverUrl
                maybeCollection) st) = Returned info ->
        exists to remoteUrl,
          more = [url_resolve serverUrl to;
                  CoreApiClient_GetTeamProject remoteUrl teamProjectName]).
Proof.
  unfold bind.
  pose proof (fetchCollection_state env isTeamServices serverUrl collectionName st) as Hst.
  destruct (fetchCollection env isTeamServices serverUrl collectionName st)
    as [[maybeCollection|err] st1]; cbn [snd] in Hst; subst st1.
  - destruct (fetchProjectAndAssemble_state env isTeamServices teamProjectName serverUrl
                maybeCollection
                (after st (collectionFetch isTeamServices serverUrl collectionName)))
      as (more & Hsnd & Hshape & Hret).
    exists more. rewrite Hsnd. unfold after. cbn [repoContext calls].
    rewrite <- app_assoc. cbn [app]. repeat split; assumption.
  - exists []. cbn [fst snd]. unfold after. split; [reflexivity|].
    split; [now left|]. intros ? H; discriminate H.
Qed.

Lemma filter_nil_not_In {A} (f : A -> bool) (l : list A) (x : A) :
  filter f l = [] -> f x = true -> ~ In x l.
Proof.
  intros Hnil Hx Hin.
  assert (H : In x (filter f l)) by (apply filter_In; auto).
  rewrite Hnil in H. exact H.
Qed.

(** The context a resolution leaves behind: the caller's, or for a TFVC
    context the caller's with the validated default-collection URL. *)
Lemma resolution_context (env : Environment) (ctx : RepositoryContext) :
  repoContext (snd (resolution env ctx)) = ctx \/
  Type_ ctx = TFVC /\
  exists candidate,
    repoContext (snd (resolution env ctx)) = withRemoteUrl ctx candidate /\
    In (TeamServicesApi_validateTfvcCollectionUrl candidate) (calls (snd (resolution env ctx))).
Proof.
  destruct (Type_ ctx) eqn:Hty.
  - left. unfold resolution, GetRepositoryInfo. unfold_async. cbn [repoContext].
    rewrite Hty. cbn.
    now destruct (getVstsInfo env (RemoteUrl ctx)).
  - rewrite resolution_stages by auto.
    destruct (resolveAddress_frame env (IsTeamFoundationServicesRepo env (RemoteUrl ctx))
                (new_RepositoryInfo (OfRemoteUrl (RemoteUrl ctx)))
                {| repoContext := ctx; calls := [] |}) as (more & Hcalls & _ & Hctx).
    destruct (resolveAddress env (IsTeamFoundationServicesRepo env (RemoteUrl ctx))
                (new_RepositoryInfo (OfRemoteUrl (RemoteUrl ctx)))
                {| repoContext := ctx; calls := [] |}) as [[address|err] st1].
    + destruct (fetch_stages_state env (IsTeamFoundationServicesRepo env (RemoteUrl ctx))
                  (TeamProjectName ctx) (fst address) (snd address) st1)
        as (more' & Hsnd & _).
      rewrite Hsnd. cbn [snd repoContext calls] in *.
      destruct Hctx as [Hsame | (_ & candidate & Hcand & Hin)]; [now left|].
      right. split; [reflexivity|]. exists candidate. split; [exact Hcand|].
      rewrite Hcalls. apply in_or_app. left. exact Hin.
    + cbn [snd repoContext calls] in *.
      destruct Hctx as [Hsame | (_ & candidate & Hcand & Hin)]; [now left|].
      right. split; [reflexivity|]. exists candidate. split; [exact Hcand|].
      rewrite Hcalls. exact Hin.
  - left. unfold resolution, GetRepositoryInfo. unfold_async. cbn [repoContext].
    rewrite Hty. reflexivity.
  - left. rewrite resolution_stages by auto.
    destruct (resolveAddress_frame env (IsTeamFoundationServicesRepo env (RemoteUrl ctx))
                (new_RepositoryInfo (OfRemoteUrl (RemoteUrl ctx)))
                {| repoContext := ctx; calls := [] |}) as (more & _ & _ & Hctx).
    cbn [repoContext] in Hctx. rewrite Hty in Hctx.
    destruct Hctx as [Hsame | (Habs & _)]; [|discriminate].
    destruct (resolveAddress env (IsTeamFoundationServicesRepo env (RemoteUrl ctx))
                (new_RepositoryInfo (OfRemoteUrl (RemoteUrl ctx)))
                {| repoContext := ctx; calls := [] |}) as [[address|err] st1].
    + destruct (fetch_stages_state env (IsTeamFoundationServicesRepo env (RemoteUrl ctx))
                  (TeamProjectName ctx) (fst address) (snd address) st1)
        as (more' & Hsnd & _).
      rewrite Hsnd. exact Hsame.
    + exact Hsame.
Qed.

(** C10.  Resolving an external repository leaves the caller's context as it
    was, whichever hypothesis validated; a resolution that changes the stored
    remote URL is a resolution of a TFVC context. *)
Theorem external_context_untouched (env : Environment) (ctx : RepositoryContext) :
  (Type_ ctx = EXTERNAL -> repoContext (snd (resolution env ctx)) = ctx) /\
  (RemoteUrl (repoContext (snd (resolution env ctx))) <> RemoteUrl ctx ->
   Type_ ctx = TFVC).
Proof.
  destruct (resolution_context env ctx) as [Hsame | (Hty & _)].
  - split; [intros _; exact Hsame | rewrite Hsame; congruence].
  - split; [congruence | intros _; exact Hty].
Qed.

Lemma external_context_untouched_witness :
  Type_ (sampleContext EXTERNAL "https://tfsserver/tfs") = EXTERNAL /\
  repoContext (snd (resolution (sampleEnv (allBut "https://tfsserver/tfs"))
                      (sampleContext EXTERNAL "https://tfsserver/tfs")))
  = sampleContext EXTERNAL "https://tfsserver/tfs".
Proof.
  split; [reflexivity|].
  apply (proj1 (external_context_untouched
                  (sampleEnv (allBut "https://tfsserver/tfs"))
                  (sampleContext EXTERNAL "https://tfsserver/tfs"))).
  reflexivity.
Defined.

(** The calls after the address stage hold no validation. *)
Lemma fetch_stages_no_validation (serverUrl teamProjectName : value string)
    (more : list Call) :
  more = [] \/
  (exists to, more = [url_resolve serverUrl to]) \/
  (exists to remoteUrl,
      more = [url_resolve serverUrl to;
              CoreApiClient_GetTeamProject remoteUrl teamProjectName]) ->
  filter isValidation more = [] /\ filter isCollectionFetch more = [].
Proof.
  intros [-> | [(to & ->) | (to & remoteUrl & ->)]]; split; reflexivity.
Qed.

(** C4.  For a TFVC or external context whose remote URL is a Team Services
    URL, the only URL validated is [https://{account}.visualstudio.com/].
    When that validation answers [true], the address is that server URL with
    the account name as collection name, and the collection fetch that
    follows is given exactly these.  When it answers [false], the resolution
    throws at once: this one validation is the only call made and the context
    is as the caller left it. *)
Theorem hosted_resolution (env : Environment) (ctx : RepositoryContext) :
  Type_ ctx = TFVC \/ Type_ ctx = EXTERNAL ->
  IsTeamFoundationServicesRepo env (RemoteUrl ctx) = true ->
  let st0 := {| repoContext := ctx; calls := [] |} in
  let info := new_RepositoryInfo (OfRemoteUrl (RemoteUrl ctx)) in
  let account := Account env info in
  let serverUrl := "https://" ++ account ++ ".visualstudio.com/" in
  (fst (validateTfvcCollectionUrl env serverUrl st0) = Returned true ->
   resolveAddress env true info st0 =
   (Returned (defined serverUrl, defined account),
    after st0 (TeamServicesApi_validateTfvcCollectionUrl serverUrl)) /\
   exists more,
     snd (resolution env ctx) =
     {| repoContext := ctx;
        calls := TeamServicesApi_validateTfvcCollectionUrl serverUrl
                 :: CoreApiClient_GetProjectCollection (defined serverUrl) (defined account)
                 :: more |} /\
     filter isValidation more = []) /\
  (fst (validateTfvcCollectionUrl env serverUrl st0) = Returned false ->
   resolution env ctx =
   (Thrown (new_Error (UnableToValidateTeamServicesTfvcRepository env
                       ++ " Collection name: '" ++ account
                       ++ "', Url: '" ++ serverUrl ++ "'")),
    {| repoContext := ctx;
       calls := [TeamServicesApi_validateTfvcCollectionUrl serverUrl] |})).
Proof.
  intros Hty Hhosted st0 info account serverUrl.
  rewrite (resolution_stages env ctx Hty), Hhosted.
  fold st0 info. rewrite resolveAddress_hosted.
  change (hostedServerUrl (Account env info)) with serverUrl.
  fold account. split.
  - intros Hvalid. apply validate_true_inv in Hvalid. rewrite Hvalid.
    split; [reflexivity|]. cbn [fst snd].
    destruct (fetch_stages_state env true (TeamProjectName ctx)
                (defined serverUrl) (defined account)
                (after st0 (TeamServicesApi_validateTfvcCollectionUrl serverUrl)))
      as (more & Hsnd & Hshape & _).
    exists more. rewrite Hsnd. split; [reflexivity|].
    now apply (fetch_stages_no_validation (defined serverUrl) (TeamProjectName ctx)).
  - intros Hinvalid. apply validate_false_inv in Hinvalid as (err & Herr & H404).
    rewrite Herr, H404. reflexivity.
Qed.

Lemma hosted_resolution_witness :
  fst (resolution (sampleEnv (fun _ => false))
         (sampleContext TFVC "https://fabrikam.visualstudio.com"))
  = Thrown (new_Error ("Unable to validate the Team Services TFVC repository."
                       ++ " Collection name: 'fabrikam'"
                       ++ ", Url: 'https://fabrikam.visualstudio.com/'")) /\
  calls (snd (resolution (sampleEnv (fun _ => false))
                (sampleContext TFVC "https://fabrikam.visualstudio.com")))
  = [TeamServicesApi_validateTfvcCollectionUrl "https://fabrikam.visualstudio.com/"].
Proof.
  rewrite (proj2 (hosted_resolution (sampleEnv (fun _ => false))
                    (sampleContext TFVC "https://fabrikam.visualstudio.com")
                    (or_introl eq_refl) eq_refl) eq_refl).
  split; reflexivity.
Defined.

(** The hosted scenario of the specification, run on the sample server. *)
Example hosted_scenario :
  resolveAddress (sampleEnv (fun _ => true)) true
    (new_RepositoryInfo (OfRemoteUrl "https://fabrikam.visualstudio.com"))
    {| repoContext := sampleContext TFVC "https://fabrikam.visualstudio.com"; calls := [] |}
  = (Returned (defined "https://fabrikam.visualstudio.com/", defined "fabrikam"),
     {| repoContext := sampleContext TFVC "https://fabrikam.visualstudio.com";
        calls := [TeamServicesApi_validateTfvcCollectionUrl
                    "https://fabrikam.visualstudio.com/"] |}).
Proof. reflexivity. Qed.

(** C6.  For a TFVC or external context on a server that is not Team
    Services, when validating the remote URL as given answers [true], the
    address is the decomposition of that URL; the collection fetch comes
    right after that one validation, no other validation is made during the
    resolution, and the caller's context is left as it was. *)
Theorem literal_success_skips_default (env : Environment) (ctx : RepositoryContext) :
  Type_ ctx = TFVC \/ Type_ ctx = EXTERNAL ->
  IsTeamFoundationServicesRepo env (RemoteUrl ctx) = false ->
  let st0 := {| repoContext := ctx; calls := [] |} in
  let info := new_RepositoryInfo (OfRemoteUrl (RemoteUrl ctx)) in
  let parts := splitTfvcCollectionUrl (RemoteUrl ctx) in
  fst (validateTfvcCollectionUrl env (RemoteUrl ctx) st0) = Returned true ->
  resolveAddress env false info st0 =
  (Returned (get parts 0, get parts 1),
   after st0 (TeamServicesApi_validateTfvcCollectionUrl (RemoteUrl ctx))) /\
  exists more,
    snd (resolution env ctx) =
    {| repoContext := ctx;
       calls := TeamServicesApi_validateTfvcCollectionUrl (RemoteUrl ctx)
                :: TfsCatalogSoapClient_GetProjectCollection (get parts 0) (get parts 1)
                :: more |} /\
    filter isValidation more = [].
Proof.
  intros Hty Hhosted st0 info parts Hvalid.
  apply validate_true_inv in Hvalid.
  pose proof (resolveAddress_literal env info st0 Hvalid) as Haddr.
  cbn [repoContext st0] in Haddr. fold parts in Haddr.
  split; [exact Haddr|].
  rewrite (resolution_stages env ctx Hty), Hhosted.
  fold st0 info. rewrite Haddr. cbn [fst snd].
  destruct (fetch_stages_state env false (TeamProjectName ctx) (get parts 0) (get parts 1)
              (after st0 (TeamServicesApi_validateTfvcCollectionUrl (RemoteUrl ctx))))
    as (more & Hsnd & Hshape & _).
  exists more. rewrite Hsnd. split; [reflexivity|].
  now apply (fetch_stages_no_validation (get parts 0) (TeamProjectName ctx)).
Qed.

Lemma literal_success_skips_default_witness :
  exists more,
    snd (resolution (sampleEnv (fun _ => true))
           (sampleContext TFVC "https://tfsserver/tfs/DefaultCollection")) =
    {| repoContext := sampleContext TFVC "https://tfsserver/tfs/DefaultCollection";
       calls := TeamServicesApi_validateTfvcCollectionUrl
                  "https://tfsserver/tfs/DefaultCollection"
                :: TfsCatalogSoapClient_GetProjectCollection
                     (get (splitTfvcCollectionUrl "https://tfsserver/tfs/DefaultCollection") 0)
                     (get (splitTfvcCollectionUrl "https://tfsserver/tfs/DefaultCollection") 1)
                :: more |} /\
    filter isValidation more = [].
Proof.
  exact (proj2 (literal_success_skips_default (sampleEnv (fun _ => true))
                  (sampleContext TFVC "https://tfsserver/tfs/DefaultCollection")
                  (or_introl eq_refl) eq_refl eq_refl)).
Defined.

(** The literal scenario of the specification, run on the sample server. *)
Example literal_scenario :
  fst (resolveAddress (sampleEnv (fun _ => true)) false
         (new_RepositoryInfo (OfRemoteUrl "https://tfsserver/tfs/DefaultCollection"))
         {| repoContext := sampleContext TFVC "https://tfsserver/tfs/DefaultCollection";
            calls := [] |})
  = Returned (defined "https://tfsserver/tfs/", defined "DefaultCollection").
Proof. vm_compute. reflexivity. Qed.

(** C7.  On a server that is not Team Services, whenever the SOAP collection
    fetch of a resolution answers with no collection object, the resolution
    throws an error naming the collection and the server; that fetch is the
    last call made, so no project is fetched and nothing is returned. *)
Theorem soap_absent_collection_fails (env : Environment) (ctx : RepositoryContext)
    (serverUrl collectionName : value string) :
  Type_ ctx = TFVC \/ Type_ ctx = EXTERNAL ->
  IsTeamFoundationServicesRepo env (RemoteUrl ctx) = false ->
  In (TfsCatalogSoapClient_GetProjectCollection serverUrl collectionName)
     (calls (snd (resolution env ctx))) ->
  soapGetProjectCollection env serverUrl collectionName = Returned undefined ->
  fst (resolution env ctx) =
  Thrown (new_Error ("Using SOAP, could not find a project collection object for "
                     ++ toString collectionName ++ " at " ++ toString serverUrl)) /\
  exists before,
    calls (snd (resolution env ctx)) =
    (before ++ [TfsCatalogSoapClient_GetProjectCollection serverUrl collectionName])%list /\
    filter isFetch before = [].
Proof.
  intros Hty Hhosted. rewrite (resolution_stages env ctx Hty), Hhosted.
  destruct (resolveAddress_frame env false
              (new_RepositoryInfo (OfRemoteUrl (RemoteUrl ctx)))
              {| repoContext := ctx; calls := [] |}) as (before & Hcalls & Hnofetch & _).
  destruct (resolveAddress env false (new_RepositoryInfo (OfRemoteUrl (RemoteUrl ctx)))
              {| repoContext := ctx; calls := [] |}) as [[address|err] st1];
    cbn [snd calls app] in Hcalls.
  - destruct (fetch_stages_state env false (TeamProjectName ctx)
                (fst address) (snd address) st1) as (more & Hsnd & Hshape & _).
    intros Hin Habsent. rewrite Hsnd in Hin. cbn [calls collectionFetch] in Hin.
    rewrite Hcalls in Hin.
    assert (Hsame : TfsCatalogSoapClient_GetProjectCollection (fst address) (snd address)
                    = TfsCatalogSoapClient_GetProjectCollection serverUrl collectionName).
    { apply in_app_or in Hin as [Hin | [Hin | Hin]].
      - exfalso. revert Hin. now apply (filter_nil_not_In isFetch).
      - exact Hin.
      - exfalso.
        destruct Hshape as [-> | [(to & ->) | (to & remoteUrl & ->)]]; cbn in Hin;
          intuition discriminate. }
    injection Hsame as Hs Hn. rewrite Hs, Hn in *.
    unfold bind. rewrite (fetchCollection_soap_absent env _ _ st1 Habsent).
    cbn [fst snd]. split; [reflexivity|].
    exists before. unfold after. cbn [calls]. now rewrite Hcalls.
  - cbn [snd fst]. intros Hin _. exfalso. rewrite Hcalls in Hin.
    revert Hin. now apply (filter_nil_not_In isFetch).
Qed.

Lemma soap_absent_collection_fails_witness :
  fst (resolution (sampleEnvNoCatalog (fun _ => true))
         (sampleContext TFVC "https://tfsserver/tfs/DefaultCollection"))
  = Thrown (new_Error ("Using SOAP, could not find a project collection object for "
                       ++ "DefaultCollection" ++ " at " ++ "https://tfsserver/tfs/")) /\
  exists before,
    calls (snd (resolution (sampleEnvNoCatalog (fun _ => true))
                  (sampleContext TFVC "https://tfsserver/tfs/DefaultCollection"))) =
    (before ++ [TfsCatalogSoapClient_GetProjectCollection
                  (defined "https://tfsserver/tfs/") (defined "DefaultCollection")])%list /\
    filter isFetch before = [].
Proof.
  apply (soap_absent_collection_fails (sampleEnvNoCatalog (fun _ => true))
           (sampleContext TFVC "https://tfsserver/tfs/DefaultCollection")
           (defined "https://tfsserver/tfs/") (defined "DefaultCollection")).
  - left. reflexivity.
  - reflexivity.
  - vm_compute. right. left. reflexivity.
  - reflexivity.
Defined.

(** *** The default-collection fallback *)

(** C1, as the code behaves.  For a TFVC or external context whose remote URL
    is [https://tfsserver/tfs], on a server that is not Team Services: when
    validating that URL answers [false] and validating the candidate that
    [url.resolve] builds from it and [DefaultCollection] answers [true], the
    address keeps the remote URL as server URL with [DefaultCollection] as
    collection name, these two validations are the only ones made, and the
    stored remote URL becomes the validated candidate when the context is
    TFVC and stays as it was when the context is external. *)
Theorem default_collection_fallback (env : Environment) (ctx : RepositoryContext)
    (candidate : string) :
  Type_ ctx = TFVC \/ Type_ ctx = EXTERNAL ->
  IsTeamFoundationServicesRepo env (RemoteUrl ctx) = false ->
  RemoteUrl ctx = "https://tfsserver/tfs" ->
  let st0 := {| repoContext := ctx; calls := [] |} in
  let info := new_RepositoryInfo (OfRemoteUrl (RemoteUrl ctx)) in
  fst (validateTfvcCollectionUrl env "https://tfsserver/tfs" st0) = Returned false ->
  resolve env (defined "https://tfsserver/tfs") "DefaultCollection" = Returned candidate ->
  fst (validateTfvcCollectionUrl env candidate st0) = Returned true ->
  fst (resolveAddress env false info st0)
  = Returned (defined "https://tfsserver/tfs", defined "DefaultCollection") /\
  calls (snd (resolveAddress env false info st0))
  = [TeamServicesApi_validateTfvcCollectionUrl "https://tfsserver/tfs";
     url_resolve (defined "https://tfsserver/tfs") "DefaultCollection";
     TeamServicesApi_validateTfvcCollectionUrl candidate] /\
  (Type_ ctx = TFVC ->
   repoContext (snd (resolution env ctx)) = withRemoteUrl ctx candidate) /\
  (Type_ ctx = EXTERNAL ->
   repoContext (snd (resolution env ctx)) = ctx).
Proof.
  intros Hty Hhosted Hurl st0 info Hlit Hres Hcand.
  apply validate_false_inv in Hlit as (err & Hlit & H404).
  apply validate_true_inv in Hcand.
  assert (Haddr := resolveAddress_default env info st0 err candidate).
  cbn [repoContext st0] in Haddr. rewrite Hurl in Haddr.
  specialize (Haddr Hlit H404 Hres Hcand).
  rewrite Haddr. cbn [fst snd calls app].
  split; [reflexivity|]. split; [reflexivity|].
  rewrite (resolution_stages env ctx Hty), Hhosted. fold st0 info. rewrite Haddr.
  cbn [fst snd].
  match goal with
  | |- context [bind ?m ?k ?st] =>
      destruct (fetch_stages_state env false (TeamProjectName ctx)
                  (defined "https://tfsserver/tfs") (defined "DefaultCollection") st)
        as (more & Hsnd & _)
  end.
  rewrite Hsnd. cbn [repoContext].
  split; intros Hkind; rewrite Hkind; reflexivity.
Qed.

Lemma default_collection_fallback_witness :
  repoContext (snd (resolution (sampleEnv (allBut "https://tfsserver/tfs"))
                      (sampleContext TFVC "https://tfsserver/tfs")))
  = withRemoteUrl (sampleContext TFVC "https://tfsserver/tfs")
      "https://tfsserver/DefaultCollection".
Proof.
  apply (default_collection_fallback (sampleEnv (allBut "https://tfsserver/tfs"))
           (sampleContext TFVC "https://tfsserver/tfs")
           "https://tfsserver/DefaultCollection"
           (or_introl eq_refl) eq_refl eq_refl eq_refl eq_refl eq_refl).
  reflexivity.
Defined.

(** C1, as claimed, fails on the sample server that refuses only
    [https://tfsserver/tfs].  The literal validation answers [false] and the
    candidate validation answers [true], yet the candidate is
    [https://tfsserver/DefaultCollection], since [url.resolve] replaces the
    last path segment of a base without trailing separator;
    [https://tfsserver/tfs/DefaultCollection] would validate but is never
    tried; and for an external context the stored remote URL is not
    overwritten. *)
Lemma default_collection_scenario_refuted :
  let env := sampleEnv (allBut "https://tfsserver/tfs") in
  let tfvc := sampleContext TFVC "https://tfsserver/tfs" in
  let external := sampleContext EXTERNAL "https://tfsserver/tfs" in
  fst (validateTfvcCollectionUrl env "https://tfsserver/tfs"
         {| repoContext := external; calls := [] |}) = Returned false /\
  filter isValidation (calls (snd (resolution env external)))
  = [TeamServicesApi_validateTfvcCollectionUrl "https://tfsserver/tfs";
     TeamServicesApi_validateTfvcCollectionUrl "https://tfsserver/DefaultCollection"] /\
  fst (validateTfvcCollectionUrl env "https://tfsserver/DefaultCollection"
         {| repoContext := external; calls := [] |}) = Returned true /\
  "https://tfsserver/DefaultCollection" <> "https://tfsserver/tfs/DefaultCollection" /\
  validateCollectionUrl env "https://tfsserver/tfs/DefaultCollection" = Returned tt /\
  ~ In (TeamServicesApi_validateTfvcCollectionUrl "https://tfsserver/tfs/DefaultCollection")
       (calls (snd (resolution env external))) /\
  RemoteUrl (repoContext (snd (resolution env external))) = "https://tfsserver/tfs" /\
  RemoteUrl (repoContext (snd (resolution env tfvc))) = "https://tfsserver/DefaultCollection" /\
  ~ (RemoteUrl (repoContext (snd (resolution env external)))
     = "https://tfsserver/tfs/DefaultCollection") /\
  ~ (RemoteUrl (repoContext (snd (resolution env tfvc)))
     = "https://tfsserver/tfs/DefaultCollection").
Proof.
  cbv zeta. repeat split; try (vm_compute; reflexivity);
    try discriminate; vm_compute; intuition discriminate.
Qed.

(** *** Protocols *)

Lemma isFetch_collectionFetch (isTeamServices : bool) (serverUrl collectionName : value string) :
  isFetch (collectionFetch isTeamServices serverUrl collectionName) = true.
Proof. now destruct isTeamServices. Qed.

(** C2, as the code behaves.  In every resolution for a TFVC or external
    context the fetches are, in order, at most one collection fetch and then
    at most one project fetch, and both are there when the resolution returns.
    The collection fetch goes over REST for a Team Services URL and over SOAP
    otherwise; the project fetch goes through [CoreApiClient], over REST, in
    both branches. *)
Theorem fetch_protocols (env : Environment) (ctx : RepositoryContext) :
  Type_ ctx = TFVC \/ Type_ ctx = EXTERNAL ->
  let isTeamServices := IsTeamFoundationServicesRepo env (RemoteUrl ctx) in
  let fetches := filter isFetch (calls (snd (resolution env ctx))) in
  exists serverUrl collectionName remoteUrl,
    (fetches = [] \/
     fetches = [collectionFetch isTeamServices serverUrl collectionName] \/
     fetches = [collectionFetch isTeamServices serverUrl collectionName;
                CoreApiClient_GetTeamProject remoteUrl (TeamProjectName ctx)]) /\
    (forall info,
        fst (resolution env ctx) = Returned info ->
        fetches = [collectionFetch isTeamServices serverUrl collectionName;
                   CoreApiClient_GetTeamProject remoteUrl (TeamProjectName ctx)]) /\
    protocolOf (collectionFetch isTeamServices serverUrl collectionName)
    = Some (if isTeamServices then REST else SOAP) /\
    protocolOf (CoreApiClient_GetTeamProject remoteUrl (TeamProjectName ctx)) = Some REST.
Proof.
  intros Hty isTeamServices fetches. subst fetches.
  rewrite (resolution_stages env ctx Hty). fold isTeamServices.
  destruct (resolveAddress_frame env isTeamServices
              (new_RepositoryInfo (OfRemoteUrl (RemoteUrl ctx)))
              {| repoContext := ctx; calls := [] |}) as (before & Hcalls & Hnofetch & _).
  destruct (resolveAddress env isTeamServices
              (new_RepositoryInfo (OfRemoteUrl (RemoteUrl ctx)))
              {| repoContext := ctx; calls := [] |}) as [[address|err] st1];
    cbn [snd calls app] in Hcalls.
  - destruct (fetch_stages_state env isTeamServices (TeamProjectName ctx)
                (fst address) (snd address) st1) as (more & Hsnd & Hshape & Hret).
    rewrite Hsnd. cbn [calls]. rewrite Hcalls, filter_app, Hnofetch.
    cbn [app filter]. rewrite isFetch_collectionFetch.
    destruct Hshape as [-> | [(to & ->) | (to & remoteUrl & ->)]].
    + exists (fst address), (snd address), "". cbn [filter].
      repeat split.
      * right. left. reflexivity.
      * intros info Hinfo. destruct (Hret info Hinfo) as (? & ? & H). discriminate H.
      * now destruct isTeamServices.
    + exists (fst address), (snd address), "". cbn [filter isFetch isCollectionFetch
                                                      isProjectFetch orb].
      repeat split.
      * right. left. reflexivity.
      * intros info Hinfo. destruct (Hret info Hinfo) as (? & ? & H). discriminate H.
      * now destruct isTeamServices.
    + exists (fst address), (snd address), remoteUrl.
      cbn [filter isFetch isCollectionFetch isProjectFetch orb].
      repeat split.
      * right. right. reflexivity.
      * now destruct isTeamServices.
  - exists undefined, undefined, "". cbn [snd fst calls]. rewrite Hcalls, Hnofetch.
    repeat split.
    + left. reflexivity.
    + intros info H. discriminate H.
    + now destruct isTeamServices.
Qed.

Lemma fetch_protocols_witness :
  exists serverUrl collectionName remoteUrl,
    filter isFetch
      (calls (snd (resolution (sampleEnv (fun _ => true))
                     (sampleContext TFVC "https://tfsserver/tfs/DefaultCollection"))))
    = [TfsCatalogSoapClient_GetProjectCollection serverUrl collectionName;
       CoreApiClient_GetTeamProject remoteUrl (defined "MyProject")].
Proof.
  destruct (fetch_protocols (sampleEnv (fun _ => true))
              (sampleContext TFVC "https://tfsserver/tfs/DefaultCollection")
              (or_introl eq_refl))
    as (serverUrl & collectionName & remoteUrl & _ & Hret & _).
  exists serverUrl, collectionName, remoteUrl.
  exact (Hret _ eq_refl).
Defined.

(** C2, as claimed, fails: a resolution on the sample on-premises server
    fetches the collection over SOAP and the project over REST, so no single
    protocol serves both fetches. *)
Lemma onprem_resolution_mixes_protocols :
  let env := sampleEnv (fun _ => true) in
  let ctx := sampleContext TFVC "https://tfsserver/tfs/DefaultCollection" in
  IsTeamFoundationServicesRepo env (RemoteUrl ctx) = false /\
  map protocolOf (filter isFetch (calls (snd (resolution env ctx))))
  = [Some SOAP; Some REST] /\
  ~ (exists protocol,
        forall c, In c (calls (snd (resolution env ctx))) ->
                  isFetch c = true -> protocolOf c = Some protocol).
Proof.
  cbv zeta. split; [reflexivity|]. split; [vm_compute; reflexivity|].
  intros (protocol & Hall).
  assert (Hsoap := Hall (TfsCatalogSoapClient_GetProjectCollection
                           (defined "https://tfsserver/tfs/")
                           (defined "DefaultCollection"))).
  assert (Hrest := Hall (CoreApiClient_GetTeamProject
                           "https://tfsserver/tfs/DefaultCollection"
                           (defined "MyProject"))).
  cbn [protocolOf] in Hsoap, Hrest.
  assert (H1 : Some SOAP = Some protocol)
    by (apply Hsoap; [vm_compute; tauto | reflexivity]).
  assert (H2 : Some REST = Some protocol)
    by (apply Hrest; [vm_compute; tauto | reflexivity]).
  congruence.
Qed.

(** *** The collection name *)

(** C8, as the code behaves.  Address resolution for a non-empty remote URL
    never yields a missing collection name, and decomposing a non-empty URL
    whose trimmed form has no separator yields the empty string.  The
    decomposition of the empty URL has no collection name at all. *)
Theorem collection_name_defined_for_nonempty_url :
  (forall env isTeamServices info st address st',
      RemoteUrl (repoContext st) <> "" ->
      resolveAddress env isTeamServices info st = (Returned address, st') ->
      exists name, snd address = defined name) /\
  (forall collectionUrl,
      collectionUrl <> "" ->
      exists name,
        get (splitTfvcCollectionUrl collectionUrl) 1 = defined name /\
        (hasSeparator (trimTrailingSeparators collectionUrl) = false -> name = "")) /\
  get (splitTfvcCollectionUrl "") 1 = undefined.
Proof.
  split; [|split].
  - intros env isTeamServices info [ctx made] address st' Hne.
    cbn [repoContext] in Hne.
    destruct (Decomposition.split_of_nonempty (RemoteUrl ctx) Hne)
      as (server & name & Hsplit & _).
    unfold resolveAddress, validateTfvcCollectionUrl. unfold_async. unfold after.
    destruct isTeamServices; cbv beta; cbn [repoContext calls]; rewrite ?Hsplit;
    repeat (destruct_scrutinee; cbn [repoContext calls negb fst snd]);
      intros H; inversion H; subst; cbn [snd get]; eauto.
  - intros collectionUrl Hne.
    destruct (Decomposition.split_of_nonempty collectionUrl Hne)
      as (server & name & Hsplit & Hempty).
    exists name. rewrite Hsplit. split; [reflexivity | exact Hempty].
  - vm_compute. reflexivity.
Qed.

Lemma collection_name_defined_for_nonempty_url_witness :
  exists name,
    get (splitTfvcCollectionUrl "tfsserver///") 1 = defined name /\
    (hasSeparator (trimTrailingSeparators "tfsserver///") = false -> name = "").
Proof.
  apply (proj1 (proj2 collection_name_defined_for_nonempty_url) "tfsserver///").
  discriminate.
Defined.

(** C8, as claimed, fails on the empty URL: the decomposition returns an
    array whose only slot is a hole, and a resolution whose empty remote URL
    validates hands an undefined server URL and collection name to the
    collection fetch. *)
Lemma empty_url_has_no_collection_name :
  splitTfvcCollectionUrl "" = [undefined] /\
  ~ (exists name, get (splitTfvcCollectionUrl "") 1 = defined name) /\
  fst (resolveAddress (sampleEnv (fun _ => true)) false
         (new_RepositoryInfo (OfRemoteUrl ""))
         {| repoContext := sampleContext TFVC ""; calls := [] |})
  = Returned (undefined, undefined).
Proof.
  split; [vm_compute; reflexivity|]. split; [|vm_compute; reflexivity].
  intros (name & H). vm_compute in H. discriminate H.
Qed.

End Resolution.

(* ================================================================== *)
(** * Further properties of the URL decomposition *)

Module DecompositionLaws.
Import Js UrlHelpers Decomposition.

(** What [trimTrailingSeparators] returns does not end with a separator. *)
Lemma trimmed_ends_clean (uri : string) :
  endsWithSeparator (trimTrailingSeparators uri) = false.
Proof.
  destruct (strip_exists uri) as (t & n & Huri & Hend).
  rewrite Huri. now rewrite (trimTrailingSeparators_strips t n Hend).
Qed.

(** A string that does not end with a separator is returned as it is. *)
Lemma clean_is_kept (uri : string) :
  endsWithSeparator uri = false -> trimTrailingSeparators uri = uri.
Proof.
  intros Hend. pose proof (trimTrailingSeparators_strips uri 0 Hend) as H.
  cbn [separators] in H. now rewrite app_empty_r in H.
Qed.

(** [trimTrailingSeparators] removes separators at the end and nothing else:
    what it returns does not end with a separator, and the input is that
    followed by separators only. *)
Theorem trimTrailingSeparators_spec (uri : string) :
  exists n,
    uri = trimTrailingSeparators uri ++ separators n /\
    endsWithSeparator (trimTrailingSeparators uri) = false.
Proof.
  destruct (strip_exists uri) as (t & n & Huri & Hend).
  exists n. rewrite Huri at 2 3.
  rewrite (trimTrailingSeparators_strips t n Hend). now split.
Qed.

(** The strings [trimTrailingSeparators] leaves alone are exactly those that
    do not end with a separator. *)
Theorem trimTrailingSeparators_fixed_iff (uri : string) :
  trimTrailingSeparators uri = uri <-> endsWithSeparator uri = false.
Proof.
  split.
  - intros Hfix. rewrite <- Hfix. apply trimmed_ends_clean.
  - apply clean_is_kept.
Qed.

Lemma trimTrailingSeparators_fixed_iff_witness :
  trimTrailingSeparators "https://tfs/Coll" = "https://tfs/Coll".
Proof.
  apply (proj2 (trimTrailingSeparators_fixed_iff "https://tfs/Coll")). reflexivity.
Defined.

(** Trimming twice is trimming once. *)
Theorem trimTrailingSeparators_idempotent (uri : string) :
  trimTrailingSeparators (trimTrailingSeparators uri) = trimTrailingSeparators uri.
Proof. apply clean_is_kept, trimmed_ends_clean. Qed.

Lemma separators_app (m n : nat) : separators m ++ separators n = separators (m + n).
Proof. induction m as [|m IH]; simpl; [reflexivity | now rewrite IH]. Qed.

Lemma hasSeparator_nonempty (s : string) : hasSeparator s = true -> s <> "".
Proof. destruct s; [discriminate | discriminate]. Qed.

Lemma app_nonempty_l (a b : string) : a <> "" -> a ++ b <> "".
Proof. destruct a; [congruence | discriminate]. Qed.

(** Once the trimmed URL contains a separator, separators added at the end of
    the URL do not change its decomposition. *)
Theorem split_ignores_trailing_separators (collectionUrl : string) (n : nat) :
  hasSeparator (trimTrailingSeparators collectionUrl) = true ->
  splitTfvcCollectionUrl (collectionUrl ++ separators n)
  = splitTfvcCollectionUrl collectionUrl.
Proof.
  intros Hsep.
  destruct (strip_exists collectionUrl) as (t & m & Hurl & Hend).
  assert (Htrim : trimTrailingSeparators collectionUrl = t)
    by (rewrite Hurl; now apply trimTrailingSeparators_strips).
  rewrite Htrim in Hsep.
  assert (Htrim' : trimTrailingSeparators (collectionUrl ++ separators n) = t).
  { rewrite Hurl, app_assoc, separators_app. now apply trimTrailingSeparators_strips. }
  pose proof (hasSeparator_nonempty t Hsep) as Ht.
  assert (Hne : collectionUrl <> "") by (rewrite Hurl; now apply app_nonempty_l).
  assert (Hne' : collectionUrl ++ separators n <> "") by now apply app_nonempty_l.
  destruct (last_separator_exists t Hsep) as (p & name & Hs & Hname).
  rewrite (proj1 (split_of_trimmed _ t Hne' Htrim') p name Hs Hname).
  now rewrite (proj1 (split_of_trimmed _ t Hne Htrim) p name Hs Hname).
Qed.

Lemma split_ignores_trailing_separators_witness :
  splitTfvcCollectionUrl ("https://tfs/Coll" ++ separators 3)
  = splitTfvcCollectionUrl "https://tfs/Coll".
Proof.
  apply (split_ignores_trailing_separators "https://tfs/Coll" 3). reflexivity.
Defined.

(** Without a separator in the trimmed URL the whole input is kept as server
    URL, so a trailing separator does show. *)
Example split_keeps_trailing_separator_of_bare_name :
  splitTfvcCollectionUrl "tfs" = [defined "tfs"; defined ""] /\
  splitTfvcCollectionUrl "tfs/" = [defined "tfs/"; defined ""].
Proof. split; reflexivity. Qed.

Lemma endsWithSeparator_snoc (p : string) : endsWithSeparator (p ++ "/") = true.
Proof.
  unfold endsWithSeparator.
  induction p as [|x p IH]; [reflexivity|].
  simpl. destruct (p ++ "/") eqn:E; [destruct p; discriminate | exact IH].
Qed.

(** Whatever the URL, a collection name returned by the decomposition holds
    no separator, and a server URL returned by it is the whole input or ends
    with a separator. *)
Theorem split_parts_shape (collectionUrl : string) :
  (forall name,
      get (splitTfvcCollectionUrl collectionUrl) 1 = defined name ->
      hasSeparator name = false) /\
  (forall server,
      get (splitTfvcCollectionUrl collectionUrl) 0 = defined server ->
      server = collectionUrl \/ endsWithSeparator server = true).
Proof.
  destruct collectionUrl as [|c r] eqn:Hurl.
  { split; intros x H; vm_compute in H; discriminate H. }
  rewrite <- Hurl.
  assert (Hne : collectionUrl <> "") by (rewrite Hurl; discriminate).
  destruct (split_of_trimmed collectionUrl _ Hne eq_refl) as [Hsplit Hwhole].
  destruct (hasSeparator (trimTrailingSeparators collectionUrl)) eqn:Hsep.
  - destruct (last_separator_exists _ Hsep) as (p & name & Hs & Hname).
    rewrite (Hsplit p name Hs Hname). cbn [get]. split.
    + intros x H. inversion H; subst x. exact Hname.
    + intros x H. inversion H; subst x. right. apply endsWithSeparator_snoc.
  - rewrite (Hwhole eq_refl). cbn [get]. split.
    + intros x H. inversion H; subst x. reflexivity.
    + intros x H. inversion H; subst x. now left.
Qed.

Lemma split_parts_shape_witness :
  hasSeparator "Coll" = false /\
  ("https://tfs/" = "https://tfs/Coll//" \/ endsWithSeparator "https://tfs/" = true).
Proof.
  split.
  - apply (proj1 (split_parts_shape "https://tfs/Coll//") "Coll"). reflexivity.
  - apply (proj2 (split_parts_shape "https://tfs/Coll//") "https://tfs/"). reflexivity.
Defined.

(** A URL made of separators only is kept whole as server URL, with the empty
    collection name: trimming leaves nothing to split. *)
Theorem split_of_separators_only (n : nat) :
  (0 < n)%nat ->
  trimTrailingSeparators (separators n) = "" /\
  splitTfvcCollectionUrl (separators n) = [defined (separators n); defined ""].
Proof.
  intros Hn.
  assert (Htrim : trimTrailingSeparators (separators n) = "")
    by (apply (trimTrailingSeparators_strips "" n); reflexivity).
  split; [exact Htrim|].
  assert (Hne : separators n <> "") by (destruct n; [lia | discriminate]).
  now apply (proj2 (split_of_trimmed (separators n) "" Hne Htrim)).
Qed.

Lemma split_of_separators_only_witness :
  splitTfvcCollectionUrl "///" = [defined "///"; defined ""].
Proof. apply (split_of_separators_only 3). lia. Defined.

End DecompositionLaws.

(* ================================================================== *)
(** * Further properties of the resolver *)

Module ResolutionLaws.
Import Js UrlHelpers RepositoryInfoClient Resolution.

#[local] Opaque splitTfvcCollectionUrl.
#[local] Arguments statusCode_is_404 : simpl never.

(** The two fetch stages, by the answers of the clients. *)
Lemma fetch_stages_run (env : Environment) (isTeamServices : bool)
    (teamProjectName serverUrl collectionName : value string) (st : State) :
  (maybeCollection <- fetchCollection env isTeamServices serverUrl collectionName ;;
   fetchProjectAndAssemble env isTeamServices teamProjectName serverUrl maybeCollection) st
  =
  let fetch := collectionFetch isTeamServices serverUrl collectionName in
  match collectionAnswer env isTeamServices serverUrl collectionName with
  | Thrown err => (Thrown err, after st fetch)
  | Returned undefined =>
      (Thrown (if isTeamServices
               then TypeError_property "name"
               else new_Error
                      ("Using SOAP, could not find a project collection object for "
                       ++ toString collectionName ++ " at " ++ toString serverUrl)),
       after st fetch)
  | Returned (defined collection) =>
      let to := if isTeamServices then "" else collection_name collection in
      match resolve env serverUrl to with
      | Thrown err => (Thrown err, after (after st fetch) (url_resolve serverUrl to))
      | Returned remoteUrl =>
          (match restGetTeamProject env remoteUrl teamProjectName with
           | Thrown err => Thrown err
           | Returned undefined => Thrown (TypeError_property "id")
           | Returned (defined project) =>
               Returned
                 (defined
                    (new_RepositoryInfo
                       (OfTfvcBlob
                          (getTfvcRepoInfoBlob serverUrl
                             (collection_id collection) (collection_name collection)
                             (collection_url collection)
                             (project_id project) (project_name project)
                             (project_description project) (project_url project)))))
           end,
           after (after (after st fetch) (url_resolve serverUrl to))
             (CoreApiClient_GetTeamProject remoteUrl teamProjectName))
      end
  end.
Proof.
  unfold fetchCollection, fetchProjectAndAssemble, getProjectFromServer, collectionFetch,
    collectionAnswer.
  unfold_async. cbv zeta.
  destruct isTeamServices.
  - destruct (restGetProjectCollection env serverUrl collectionName) as [[|collection]|err];
      try reflexivity.
    cbn. destruct (resolve env serverUrl "") as [remoteUrl|err]; [|reflexivity].
    destruct (restGetTeamProject env remoteUrl teamProjectName) as [[|project]|err];
      reflexivity.
  - destruct (soapGetProjectCollection env serverUrl collectionName) as [[|collection]|err];
      try reflexivity.
    cbn. destruct (resolve env serverUrl (collection_name collection)) as [remoteUrl|err];
      [|reflexivity].
    destruct (restGetTeamProject env remoteUrl teamProjectName) as [[|project]|err];
      reflexivity.
Qed.

(** *** What a successful resolution went through *)

(** The fetch stages return only when both clients and [url.resolve]
    answered, and then return the blob built from the answers. *)
Lemma fetch_stages_returned (env : Environment) (isTeamServices : bool)
    (teamProjectName serverUrl collectionName : value string) (st : State)
    (info : value RepositoryInfo) :
  fst ((maybeCollection <- fetchCollection env isTeamServices serverUrl collectionName ;;
        fetchProjectAndAssemble env isTeamServices teamProjectName serverUrl
          maybeCollection) st) = Returned info ->
  exists collection remoteUrl project,
    collectionAnswer env isTeamServices serverUrl collectionName
    = Returned (defined collection) /\
    resolve env serverUrl (if isTeamServices then "" else collection_name collection)
    = Returned remoteUrl /\
    restGetTeamProject env remoteUrl teamProjectName = Returned (defined project) /\
    info = defined
             (new_RepositoryInfo
                (OfTfvcBlob
                   (getTfvcRepoInfoBlob serverUrl
                      (collection_id collection) (collection_name collection)
                      (collection_url collection)
                      (project_id project) (project_name project)
                      (project_description project) (project_url project)))).
Proof.
  intros Hret. rewrite fetch_stages_run in Hret. cbv zeta in Hret.
  destruct (collectionAnswer env isTeamServices serverUrl collectionName)
    as [[|collection]|err] eqn:Hcoll; try discriminate Hret.
  destruct (resolve env serverUrl
              (if isTeamServices then "" else collection_name collection))
    as [remoteUrl|err] eqn:Hres; [|discriminate Hret].
  destruct (restGetTeamProject env remoteUrl teamProjectName)
    as [[|project]|err] eqn:Hproj; try discriminate Hret.
  cbn [fst] in Hret. injection Hret as <-.
  exists collection, remoteUrl, project. repeat split; assumption.
Qed.

(** A TFVC or external resolution returns only a complete identity: the
    address was resolved, the collection client of the branch answered with a
    collection, [url.resolve] gave the project URL from the server URL (and,
    off Team Services, the name of that collection), the project client
    answered with a project, and the result is the blob built from exactly
    these. *)
Theorem returned_identity_is_complete (env : Environment) (ctx : RepositoryContext)
    (info : value RepositoryInfo) :
  Type_ ctx = TFVC \/ Type_ ctx = EXTERNAL ->
  fst (resolution env ctx) = Returned info ->
  let isTeamServices := IsTeamFoundationServicesRepo env (RemoteUrl ctx) in
  exists address st1 collection remoteUrl project,
    resolveAddress env isTeamServices (new_RepositoryInfo (OfRemoteUrl (RemoteUrl ctx)))
      {| repoContext := ctx; calls := [] |} = (Returned address, st1) /\
    collectionAnswer env isTeamServices (fst address) (snd address)
    = Returned (defined collection) /\
    resolve env (fst address) (if isTeamServices then "" else collection_name collection)
    = Returned remoteUrl /\
    restGetTeamProject env remoteUrl (TeamProjectName ctx) = Returned (defined project) /\
    info = defined
             (new_RepositoryInfo
                (OfTfvcBlob
                   (getTfvcRepoInfoBlob (fst address)
                      (collection_id collection) (collection_name collection)
                      (collection_url collection)
                      (project_id project) (project_name project)
                      (project_description project) (project_url project)))).
Proof.
  intros Hty Hret isTeamServices. rewrite (resolution_stages env ctx Hty) in Hret.
  fold isTeamServices in Hret.
  destruct (resolveAddress env isTeamServices
              (new_RepositoryInfo (OfRemoteUrl (RemoteUrl ctx)))
              {| repoContext := ctx; calls := [] |}) as [[address|err] st1];
    [|discriminate Hret].
  destruct (fetch_stages_returned _ _ _ _ _ _ _ Hret)
    as (collection & remoteUrl & project & Hcoll & Hres & Hproj & Hinfo).
  exists address, st1, collection, remoteUrl, project. repeat split; assumption.
Qed.

Lemma returned_identity_is_complete_witness :
  exists address st1 collection remoteUrl project,
    resolveAddress (sampleEnv (fun _ => true)) false
      (new_RepositoryInfo (OfRemoteUrl "https://tfsserver/tfs/DefaultCollection"))
      {| repoContext := sampleContext TFVC "https://tfsserver/tfs/DefaultCollection";
         calls := [] |} = (Returned address, st1) /\
    collectionAnswer (sampleEnv (fun _ => true)) false (fst address) (snd address)
    = Returned (defined collection) /\
    resolve (sampleEnv (fun _ => true)) (fst address) (collection_name collection)
    = Returned remoteUrl /\
    restGetTeamProject (sampleEnv (fun _ => true)) remoteUrl (defined "MyProject")
    = Returned (defined project) /\
    fst (resolution (sampleEnv (fun _ => true))
           (sampleContext TFVC "https://tfsserver/tfs/DefaultCollection"))
    = Returned
        (defined
           (new_RepositoryInfo
              (OfTfvcBlob
                 (getTfvcRepoInfoBlob (fst address)
                    (collection_id collection) (collection_name collection)
                    (collection_url collection)
                    (project_id project) (project_name project)
                    (project_description project) (project_url project))))).
Proof.
  destruct (returned_identity_is_complete (sampleEnv (fun _ => true))
              (sampleContext TFVC "https://tfsserver/tfs/DefaultCollection") _
              (or_introl eq_refl) eq_refl)
    as (address & st1 & collection & remoteUrl & project & H1 & H2 & H3 & H4 & H5).
  exists address, st1, collection, remoteUrl, project.
  repeat split; try assumption.
  rewrite <- H5. reflexivity.
Defined.

(** A TFVC or external resolution that returns, returns a defined blob with
    the fixed repository fields. *)
Lemma staged_return_blob (env : Environment) (ctx : RepositoryContext)
    (info : value RepositoryInfo) :
  Type_ ctx = TFVC \/ Type_ ctx = EXTERNAL ->
  fst (resolution env ctx) = Returned info ->
  exists serverUrl collection project,
    info = defined
             (new_RepositoryInfo
                (OfTfvcBlob
                   (getTfvcRepoInfoBlob serverUrl
                      (collection_id collection) (collection_name collection)
                      (collection_url collection)
                      (project_id project) (project_name project)
                      (project_description project) (project_url project)))).
Proof.
  intros Hty Hret. rewrite (resolution_stages env ctx Hty) in Hret.
  destruct (resolveAddress env (IsTeamFoundationServicesRepo env (RemoteUrl ctx))
              (new_RepositoryInfo (OfRemoteUrl (RemoteUrl ctx)))
              {| repoContext := ctx; calls := [] |}) as [[address|err] st1];
    [|discriminate Hret].
  destruct (fetch_stages_returned _ _ _ _ _ _ _ Hret)
    as (collection & remoteUrl & project & _ & _ & _ & Hinfo).
  now exists (fst address), collection, project.
Qed.

Lemma staged_return_defined (env : Environment) (ctx : RepositoryContext) :
  Type_ ctx = TFVC \/ Type_ ctx = EXTERNAL ->
  fst (resolution env ctx) = Returned undefined -> False.
Proof.
  intros Hty Hret.
  destruct (staged_return_blob env ctx undefined Hty Hret) as (? & ? & ? & H).
  discriminate H.
Qed.

(** Every identity returned for a TFVC or external context carries the fixed
    repository fields (nil id, placeholder name, project state 1 and revision
    15), and its server URL, repository URL and repository remote URL are one
    and the same value. *)
Theorem returned_identity_fixed_fields (env : Environment) (ctx : RepositoryContext)
    (info : value RepositoryInfo) :
  Type_ ctx = TFVC \/ Type_ ctx = EXTERNAL ->
  fst (resolution env ctx) = Returned info ->
  exists blob,
    info = defined (new_RepositoryInfo (OfTfvcBlob blob)) /\
    rb_id (blob_repository blob) = "00000000-0000-0000-0000-000000000000" /\
    rb_name (blob_repository blob) = "NoNameTfvcRepository" /\
    pb_state (rb_project (blob_repository blob)) = 1 /\
    pb_revision (rb_project (blob_repository blob)) = 15 /\
    rb_url (blob_repository blob) = blob_serverUrl blob /\
    rb_remoteUrl (blob_repository blob) = blob_serverUrl blob.
Proof.
  intros Hty Hret.
  destruct (staged_return_blob env ctx info Hty Hret)
    as (serverUrl & collection & project & ->).
  eexists. split; [reflexivity|]. repeat split.
Qed.

Lemma returned_identity_fixed_fields_witness :
  exists blob,
    fst (resolution (sampleEnv (fun _ => true))
           (sampleContext EXTERNAL "https://fabrikam.visualstudio.com"))
    = Returned (defined (new_RepositoryInfo (OfTfvcBlob blob))) /\
    rb_url (blob_repository blob) = blob_serverUrl blob /\
    rb_remoteUrl (blob_repository blob) = blob_serverUrl blob.
Proof.
  destruct (returned_identity_fixed_fields (sampleEnv (fun _ => true))
              (sampleContext EXTERNAL "https://fabrikam.visualstudio.com") _
              (or_intror eq_refl) eq_refl)
    as (blob & Hinfo & _ & _ & _ & _ & Hurl & Hremote).
  exists blob. rewrite <- Hinfo. repeat split; assumption.
Defined.

(** A resolution returns [undefined] exactly for a repository type that is
    neither Git, TFVC nor external; for those three it returns an identity or
    throws. *)
Theorem returns_undefined_iff_other_type (env : Environment) (ctx : RepositoryContext) :
  fst (resolution env ctx) = Returned undefined <-> Type_ ctx = ANY.
Proof.
  split.
  - intros Hret. destruct (Type_ ctx) eqn:Hty; try reflexivity; exfalso.
    + revert Hret. unfold resolution, GetRepositoryInfo. unfold_async.
      cbn [repoContext]. rewrite Hty. cbn.
      destruct (getVstsInfo env (RemoteUrl ctx)); discriminate.
    + revert Hret. apply staged_return_defined. now left.
    + revert Hret. apply staged_return_defined. now right.
  - intros Hty. unfold resolution, GetRepositoryInfo. unfold_async.
    cbn [repoContext]. rewrite Hty. reflexivity.
Qed.

Lemma returns_undefined_iff_other_type_witness :
  fst (resolution (sampleEnv (fun _ => true)) (sampleContext ANY "https://tfsserver/tfs"))
  = Returned undefined.
Proof.
  apply (proj2 (returns_undefined_iff_other_type (sampleEnv (fun _ => true))
                  (sampleContext ANY "https://tfsserver/tfs"))).
  reflexivity.
Defined.

(** *** Address resolution off Team Services, by the answers of the server *)

Lemma resolveAddress_onprem_run (env : Environment) (info : RepositoryInfo) (st : State) :
  resolveAddress env false info st =
  let remote := RemoteUrl (repoContext st) in
  let st1 := after st (TeamServicesApi_validateTfvcCollectionUrl remote) in
  match validateCollectionUrl env remote with
  | Returned _ =>
      (Returned (get (splitTfvcCollectionUrl remote) 0,
                 get (splitTfvcCollectionUrl remote) 1), st1)
  | Thrown err =>
      if statusCode_is_404 err then
        let st2 := after st1 (url_resolve (defined remote) "DefaultCollection") in
        match resolve env (defined remote) "DefaultCollection" with
        | Thrown failure => (Thrown failure, st2)
        | Returned candidate =>
            let st3 := after st2 (TeamServicesApi_validateTfvcCollectionUrl candidate) in
            match validateCollectionUrl env candidate with
            | Returned _ =>
                (Returned (defined remote, defined "DefaultCollection"),
                 {| repoContext :=
                      if RepositoryType_eqb (Type_ (repoContext st)) TFVC
                      then withRemoteUrl (repoContext st) candidate
                      else repoContext st;
                    calls := calls st3 |})
            | Thrown err2 =>
                (if statusCode_is_404 err2
                 then Thrown (new_Error
                                (UnableToValidateTfvcRepositoryWithDefaultCollection env))
                 else Thrown err2,
                 st3)
            end
        end
      else (Thrown err, st1)
  end.
Proof.
  cbv zeta. destruct st as [ctx made].
  unfold resolveAddress. unfold bind at 1. unfold this_repoContext. unfold bind at 1.
  rewrite validateTfvcCollectionUrl_run. cbn [repoContext].
  destruct (validateCollectionUrl env (RemoteUrl ctx)) as [[]|err]; [reflexivity|].
  destruct (statusCode_is_404 err); [|reflexivity].
  unfold bind at 1. unfold perform at 1.
  destruct (resolve env (defined (RemoteUrl ctx)) "DefaultCollection") as [candidate|failure];
    [|reflexivity].
  unfold bind at 1. rewrite validateTfvcCollectionUrl_run.
  destruct (validateCollectionUrl env candidate) as [[]|err2].
  - cbn [negb]. unfold_async. unfold after, withRemoteUrl. cbn [repoContext calls].
    destruct (RepositoryType_eqb (Type_ ctx) TFVC); reflexivity.
  - destruct (statusCode_is_404 err2); reflexivity.
Qed.

(** When both the remote URL and its default-collection candidate are refused
    with 404, the resolution throws the default-collection error after
    exactly these two validations, fetches nothing and leaves the context
    alone. *)
Theorem both_validations_refused (env : Environment) (ctx : RepositoryContext)
    (candidate : string) :
  Type_ ctx = TFVC \/ Type_ ctx = EXTERNAL ->
  IsTeamFoundationServicesRepo env (RemoteUrl ctx) = false ->
  let st0 := {| repoContext := ctx; calls := [] |} in
  fst (validateTfvcCollectionUrl env (RemoteUrl ctx) st0) = Returned false ->
  resolve env (defined (RemoteUrl ctx)) "DefaultCollection" = Returned candidate ->
  fst (validateTfvcCollectionUrl env candidate st0) = Returned false ->
  resolution env ctx =
  (Thrown (new_Error (UnableToValidateTfvcRepositoryWithDefaultCollection env)),
   {| repoContext := ctx;
      calls := [TeamServicesApi_validateTfvcCollectionUrl (RemoteUrl ctx);
                url_resolve (defined (RemoteUrl ctx)) "DefaultCollection";
                TeamServicesApi_validateTfvcCollectionUrl candidate] |}).
Proof.
  intros Hty Hhosted st0 Hlit Hres Hcand.
  apply validate_false_inv in Hlit as (err & Hlit & H404).
  apply validate_false_inv in Hcand as (err2 & Hcand & H404').
  rewrite (resolution_stages env ctx Hty), Hhosted, resolveAddress_onprem_run.
  cbv zeta. cbn [repoContext]. rewrite Hlit, H404, Hres, Hcand, H404'. reflexivity.
Qed.

Lemma both_validations_refused_witness :
  resolution (sampleEnv (fun _ => false)) (sampleContext TFVC "https://tfsserver/tfs") =
  (Thrown (new_Error "Unable to validate the TFVC repository with DefaultCollection."),
   {| repoContext := sampleContext TFVC "https://tfsserver/tfs";
      calls := [TeamServicesApi_validateTfvcCollectionUrl "https://tfsserver/tfs";
                url_resolve (defined "https://tfsserver/tfs") "DefaultCollection";
                TeamServicesApi_validateTfvcCollectionUrl
                  "https://tfsserver/DefaultCollection"] |}).
Proof.
  exact (both_validations_refused (sampleEnv (fun _ => false))
           (sampleContext TFVC "https://tfsserver/tfs")
           "https://tfsserver/DefaultCollection"
           (or_introl eq_refl) eq_refl eq_refl eq_refl eq_refl).
Defined.

(** A failure of the first validation other than 404 ends the resolution with
    that very error: on Team Services and off it, this validation is the only
    call, so the default collection is not tried, and the context is left
    alone. *)
Theorem first_validation_failure_is_final (env : Environment) (ctx : RepositoryContext)
    (err : ErrorObject) :
  Type_ ctx = TFVC \/ Type_ ctx = EXTERNAL ->
  let first :=
    if IsTeamFoundationServicesRepo env (RemoteUrl ctx)
    then "https://" ++ Account env (new_RepositoryInfo (OfRemoteUrl (RemoteUrl ctx)))
         ++ ".visualstudio.com/"
    else RemoteUrl ctx in
  validateCollectionUrl env first = Thrown err ->
  statusCode err <> defined 404 ->
  resolution env ctx =
  (Thrown err,
   {| repoContext := ctx; calls := [TeamServicesApi_validateTfvcCollectionUrl first] |}).
Proof.
  intros Hty first Hfirst Hnot.
  assert (H404 : statusCode_is_404 err = false).
  { destruct (statusCode_is_404 err) eqn:E; [|reflexivity].
    apply statusCode_is_404_iff in E. contradiction. }
  rewrite (resolution_stages env ctx Hty). subst first.
  destruct (IsTeamFoundationServicesRepo env (RemoteUrl ctx)).
  - rewrite resolveAddress_hosted. unfold hostedServerUrl. rewrite Hfirst, H404.
    reflexivity.
  - rewrite resolveAddress_onprem_run. cbv zeta. cbn [repoContext].
    rewrite Hfirst, H404. reflexivity.
Qed.

Lemma first_validation_failure_is_final_witness :
  resolution (sampleEnvAnswering (fun _ => Thrown serverError) (Returned undefined))
    (sampleContext TFVC "https://tfsserver/tfs") =
  (Thrown serverError,
   {| repoContext := sampleContext TFVC "https://tfsserver/tfs";
      calls := [TeamServicesApi_validateTfvcCollectionUrl "https://tfsserver/tfs"] |}).
Proof.
  apply (first_validation_failure_is_final
           (sampleEnvAnswering (fun _ => Thrown serverError) (Returned undefined))
           (sampleContext TFVC "https://tfsserver/tfs") serverError
           (or_introl eq_refl)).
  - reflexivity.
  - discriminate.
Defined.

(** During the default-collection fallback, an exception of [url.resolve] or
    a failure of the candidate validation other than 404 is thrown on
    unchanged, and the context is left alone. *)
Theorem fallback_failure_is_final (env : Environment) (ctx : RepositoryContext) :
  Type_ ctx = TFVC \/ Type_ ctx = EXTERNAL ->
  IsTeamFoundationServicesRepo env (RemoteUrl ctx) = false ->
  let st0 := {| repoContext := ctx; calls := [] |} in
  fst (validateTfvcCollectionUrl env (RemoteUrl ctx) st0) = Returned false ->
  (forall failure,
      resolve env (defined (RemoteUrl ctx)) "DefaultCollection" = Thrown failure ->
      fst (resolution env ctx) = Thrown failure /\
      repoContext (snd (resolution env ctx)) = ctx) /\
  (forall candidate err,
      resolve env (defined (RemoteUrl ctx)) "DefaultCollection" = Returned candidate ->
      validateCollectionUrl env candidate = Thrown err ->
      statusCode err <> defined 404 ->
      fst (resolution env ctx) = Thrown err /\
      repoContext (snd (resolution env ctx)) = ctx).
Proof.
  intros Hty Hhosted st0 Hlit.
  apply validate_false_inv in Hlit as (err0 & Hlit & H404).
  rewrite (resolution_stages env ctx Hty), Hhosted, resolveAddress_onprem_run.
  cbv zeta. cbn [repoContext]. rewrite Hlit, H404. split.
  - intros failure Hres. rewrite Hres. split; reflexivity.
  - intros candidate err Hres Hcand Hnot. rewrite Hres, Hcand.
    destruct (statusCode_is_404 err) eqn:E.
    + apply statusCode_is_404_iff in E. contradiction.
    + split; reflexivity.
Qed.

Lemma fallback_failure_is_final_witness :
  fst (resolution
         (sampleEnvAnswering
            (fun u => if String.eqb u "https://tfsserver/tfs"
                      then Thrown notFound else Thrown networkError)
            (Returned undefined))
         (sampleContext TFVC "https://tfsserver/tfs"))
  = Thrown networkError.
Proof.
  apply (proj2 (fallback_failure_is_final
                  (sampleEnvAnswering
                     (fun u => if String.eqb u "https://tfsserver/tfs"
                               then Thrown notFound else Thrown networkError)
                     (Returned undefined))
                  (sampleContext TFVC "https://tfsserver/tfs")
                  (or_introl eq_refl) eq_refl eq_refl)
               "https://tfsserver/DefaultCollection" networkError eq_refl eq_refl).
  discriminate.
Defined.

(** *** Fetches *)

Lemma no_fetch_no_project_fetch (l : list Call) :
  filter isFetch l = [] -> filter isProjectFetch l = [].
Proof.
  induction l as [|c l IH]; [reflexivity|].
  cbn [filter]. unfold isFetch at 1.
  destruct (isProjectFetch c); [rewrite orb_true_r; discriminate|].
  rewrite orb_false_r. destruct (isCollectionFetch c); [discriminate | exact IH].
Qed.

(** Once the address is resolved, a collection fetch that fails or yields no
    collection object ends the resolution: it throws (the very error of the
    client when the client failed), the collection fetch is its last call,
    and no project fetch is made. *)
Theorem failed_collection_fetch_stops (env : Environment) (ctx : RepositoryContext)
    (address : value string * value string) (st1 : State) :
  Type_ ctx = TFVC \/ Type_ ctx = EXTERNAL ->
  let isTeamServices := IsTeamFoundationServicesRepo env (RemoteUrl ctx) in
  resolveAddress env isTeamServices (new_RepositoryInfo (OfRemoteUrl (RemoteUrl ctx)))
    {| repoContext := ctx; calls := [] |} = (Returned address, st1) ->
  (forall collection,
      collectionAnswer env isTeamServices (fst address) (snd address)
      <> Returned (defined collection)) ->
  (exists err, fst (resolution env ctx) = Thrown err) /\
  (forall err,
      collectionAnswer env isTeamServices (fst address) (snd address) = Thrown err ->
      fst (resolution env ctx) = Thrown err) /\
  snd (resolution env ctx)
  = after st1 (collectionFetch isTeamServices (fst address) (snd address)) /\
  filter isProjectFetch (calls (snd (resolution env ctx))) = [].
Proof.
  intros Hty isTeamServices Haddr Hnone.
  destruct (resolveAddress_frame env isTeamServices
              (new_RepositoryInfo (OfRemoteUrl (RemoteUrl ctx)))
              {| repoContext := ctx; calls := [] |}) as (before & Hcalls & Hnofetch & _).
  rewrite (resolution_stages env ctx Hty). fold isTeamServices.
  rewrite Haddr in *. cbn [snd calls app] in Hcalls.
  rewrite fetch_stages_run. cbv zeta.
  assert (Hproj : filter isProjectFetch
                    (calls (after st1 (collectionFetch isTeamServices
                                         (fst address) (snd address)))) = []).
  { unfold after. cbn [calls]. rewrite Hcalls, filter_app.
    rewrite (no_fetch_no_project_fetch before Hnofetch).
    now destruct isTeamServices. }
  destruct (collectionAnswer env isTeamServices (fst address) (snd address))
    as [[|collection]|err].
  - cbn [fst snd]. repeat split; eauto. intros err H; discriminate H.
  - exfalso. now apply (Hnone collection).
  - cbn [fst snd]. repeat split; eauto. intros err' H. now injection H as ->.
Qed.

Lemma failed_collection_fetch_stops_witness :
  fst (resolution (sampleEnvAnswering (fun _ => Returned tt) (Thrown serverError))
         (sampleContext TFVC "https://fabrikam.visualstudio.com"))
  = Thrown serverError.
Proof.
  refine (proj1 (proj2 (failed_collection_fetch_stops
                          (sampleEnvAnswering (fun _ => Returned tt) (Thrown serverError))
                          (sampleContext TFVC "https://fabrikam.visualstudio.com")
                          _ _ (or_introl eq_refl) eq_refl _)) serverError eq_refl).
  intros collection H. discriminate H.
Defined.

(** Whenever a resolution fetches a project, it asks for the project name of
    the context at the URL that [url.resolve] gave for the resolved server
    URL and, on Team Services, the empty reference; off Team Services, the
    name of the collection object the SOAP client returned, not the
    collection name the address resolution found. *)
Theorem project_fetch_target (env : Environment) (ctx : RepositoryContext)
    (remoteUrl : string) (teamProjectName : value string) :
  Type_ ctx = TFVC \/ Type_ ctx = EXTERNAL ->
  In (CoreApiClient_GetTeamProject remoteUrl teamProjectName)
     (calls (snd (resolution env ctx))) ->
  let isTeamServices := IsTeamFoundationServicesRepo env (RemoteUrl ctx) in
  teamProjectName = TeamProjectName ctx /\
  exists address st1 collection,
    resolveAddress env isTeamServices (new_RepositoryInfo (OfRemoteUrl (RemoteUrl ctx)))
      {| repoContext := ctx; calls := [] |} = (Returned address, st1) /\
    collectionAnswer env isTeamServices (fst address) (snd address)
    = Returned (defined collection) /\
    resolve env (fst address) (if isTeamServices then "" else collection_name collection)
    = Returned remoteUrl.
Proof.
  intros Hty Hin isTeamServices.
  destruct (resolveAddress_frame env isTeamServices
              (new_RepositoryInfo (OfRemoteUrl (RemoteUrl ctx)))
              {| repoContext := ctx; calls := [] |}) as (before & Hcalls & Hnofetch & _).
  rewrite (resolution_stages env ctx Hty) in Hin. fold isTeamServices in Hin.
  destruct (resolveAddress env isTeamServices
              (new_RepositoryInfo (OfRemoteUrl (RemoteUrl ctx)))
              {| repoContext := ctx; calls := [] |}) as [[address|err] st1];
    cbn [snd calls app] in Hcalls.
  2:{ exfalso. cbn [snd] in Hin. rewrite Hcalls in Hin. revert Hin.
      now apply (filter_nil_not_In isFetch). }
  assert (Hbefore : ~ In (CoreApiClient_GetTeamProject remoteUrl teamProjectName)
                      (calls st1))
    by (rewrite Hcalls; now apply (filter_nil_not_In isFetch)).
  assert (Hfetch : CoreApiClient_GetTeamProject remoteUrl teamProjectName
                   <> collectionFetch isTeamServices (fst address) (snd address))
    by (destruct isTeamServices; discriminate).
  rewrite fetch_stages_run in Hin. cbv zeta in Hin.
  destruct (collectionAnswer env isTeamServices (fst address) (snd address))
    as [[|collection]|err] eqn:Hcoll.
  - exfalso. cbn in Hin. apply in_app_or in Hin as [Hin | [Hin | []]]; auto.
  - destruct (resolve env (fst address)
                (if isTeamServices then "" else collection_name collection))
      as [target|err] eqn:Hres.
    + cbn in Hin. rewrite <- !app_assoc in Hin. cbn [app] in Hin.
      apply in_app_or in Hin as [Hin | [Hin | [Hin | [Hin | []]]]]; auto;
        try (exfalso; auto; fail); try discriminate Hin.
      injection Hin as -> ->. split; [reflexivity|].
      exists address, st1, collection. repeat split; assumption.
    + exfalso. cbn in Hin. rewrite <- !app_assoc in Hin. cbn [app] in Hin.
      apply in_app_or in Hin as [Hin | [Hin | [Hin | []]]]; auto. discriminate Hin.
  - exfalso. cbn in Hin. apply in_app_or in Hin as [Hin | [Hin | []]]; auto.
Qed.

Lemma project_fetch_target_witness :
  exists address st1 collection,
    resolveAddress (sampleEnv (allBut "https://tfsserver/tfs")) false
      (new_RepositoryInfo (OfRemoteUrl "https://tfsserver/tfs"))
      {| repoContext := sampleContext TFVC "https://tfsserver/tfs"; calls := [] |}
    = (Returned address, st1) /\
    collectionAnswer (sampleEnv (allBut "https://tfsserver/tfs")) false
      (fst address) (snd address) = Returned (defined collection) /\
    resolve (sampleEnv (allBut "https://tfsserver/tfs")) (fst address)
      (collection_name collection) = Returned "https://tfsserver/DefaultCollection".
Proof.
  refine (proj2 (project_fetch_target (sampleEnv (allBut "https://tfsserver/tfs"))
                   (sampleContext TFVC "https://tfsserver/tfs")
                   "https://tfsserver/DefaultCollection" (defined "MyProject")
                   (or_introl eq_refl) _)).
  vm_compute. tauto.
Defined.

(** *** Validations and the stored remote URL *)

(** Address resolution validates at most two URLs, and one on Team Services. *)
Lemma resolveAddress_validations (env : Environment) (isTeamServices : bool)
    (info : RepositoryInfo) (st : State) :
  exists more,
    calls (snd (resolveAddress env isTeamServices info st)) = (calls st ++ more)%list /\
    (List.length (filter isValidation more) <= 2)%nat /\
    (isTeamServices = true -> (List.length (filter isValidation more) <= 1)%nat).
Proof.
  destruct isTeamServices.
  - rewrite resolveAddress_hosted. eexists. cbn [snd after calls].
    split; [reflexivity|]. cbn. split; intros; lia.
  - rewrite resolveAddress_onprem_run. cbv zeta.
    repeat (destruct_scrutinee; cbn [snd after calls repoContext]);
      rewrite <- ?app_assoc; cbn [app];
      eexists; (split; [reflexivity|]); cbn; split; (discriminate || lia).
Qed.

(** In every resolution, whatever the repository type, all validations come
    before all fetches, and at most two URLs are validated (at most one for a
    Team Services URL). *)
Theorem validations_precede_fetches (env : Environment) (ctx : RepositoryContext) :
  exists before since,
    calls (snd (resolution env ctx)) = (before ++ since)%list /\
    filter isFetch before = [] /\
    filter isValidation since = [] /\
    (List.length (filter isValidation before) <= 2)%nat /\
    (IsTeamFoundationServicesRepo env (RemoteUrl ctx) = true ->
     (List.length (filter isValidation before) <= 1)%nat).
Proof.
  assert (Hother :
            forall l, filter isValidation l = [] ->
                      calls (snd (resolution env ctx)) = l ->
                      exists before since,
                        calls (snd (resolution env ctx)) = (before ++ since)%list /\
                        filter isFetch before = [] /\
                        filter isValidation since = [] /\
                        (List.length (filter isValidation before) <= 2)%nat /\
                        (IsTeamFoundationServicesRepo env (RemoteUrl ctx) = true ->
                         (List.length (filter isValidation before) <= 1)%nat)).
  { intros l Hl Hcalls. exists [], l. rewrite Hcalls. cbn. repeat split; auto; lia. }
  assert (Hstaged :
            Type_ ctx = TFVC \/ Type_ ctx = EXTERNAL ->
            exists before since,
              calls (snd (resolution env ctx)) = (before ++ since)%list /\
              filter isFetch before = [] /\
              filter isValidation since = [] /\
              (List.length (filter isValidation before) <= 2)%nat /\
              (IsTeamFoundationServicesRepo env (RemoteUrl ctx) = true ->
               (List.length (filter isValidation before) <= 1)%nat)).
  { clear Hother. intros Hty.
    rewrite (resolution_stages env ctx Hty).
    set (isTeamServices := IsTeamFoundationServicesRepo env (RemoteUrl ctx)).
    destruct (resolveAddress_frame env isTeamServices
                (new_RepositoryInfo (OfRemoteUrl (RemoteUrl ctx)))
                {| repoContext := ctx; calls := [] |}) as (before & Hcalls & Hnofetch & _).
    destruct (resolveAddress_validations env isTeamServices
                (new_RepositoryInfo (OfRemoteUrl (RemoteUrl ctx)))
                {| repoContext := ctx; calls := [] |}) as (before' & Hcalls' & Htwo & Hone).
    rewrite Hcalls in Hcalls'. cbn [calls app] in Hcalls'. subst before'.
    destruct (resolveAddress env isTeamServices
                (new_RepositoryInfo (OfRemoteUrl (RemoteUrl ctx)))
                {| repoContext := ctx; calls := [] |}) as [[address|err] st1];
      cbn [snd calls app] in Hcalls.
    - destruct (fetch_stages_state env isTeamServices (TeamProjectName ctx)
                  (fst address) (snd address) st1) as (more & Hsnd & Hshape & _).
      exists before, (collectionFetch isTeamServices (fst address) (snd address) :: more).
      rewrite Hsnd. cbn [calls]. rewrite Hcalls. repeat split; auto.
      cbn [filter].
      replace (isValidation (collectionFetch isTeamServices (fst address) (snd address)))
        with false by now destruct isTeamServices.
      now apply (fetch_stages_no_validation (fst address) (TeamProjectName ctx)).
    - exists before, []. cbn [snd]. rewrite Hcalls, app_nil_r. repeat split; auto. }
  destruct (Type_ ctx) eqn:Hty; auto.
  - apply (Hother [TeamServicesApi_getVstsInfo (RemoteUrl ctx)]); [reflexivity|].
    unfold resolution, GetRepositoryInfo. unfold_async. cbn [repoContext].
    rewrite Hty. cbn. now destruct (getVstsInfo env (RemoteUrl ctx)).
  - apply (Hother []); [reflexivity|].
    unfold resolution, GetRepositoryInfo. unfold_async. cbn [repoContext].
    rewrite Hty. reflexivity.
Qed.

Lemma validations_precede_fetches_witness :
  exists before since,
    calls (snd (resolution (sampleEnv (fun _ => true))
                  (sampleContext TFVC "https://fabrikam.visualstudio.com")))
    = (before ++ since)%list /\
    filter isFetch before = [] /\
    filter isValidation since = [] /\
    (List.length (filter isValidation before) <= 1)%nat.
Proof.
  destruct (validations_precede_fetches (sampleEnv (fun _ => true))
              (sampleContext TFVC "https://fabrikam.visualstudio.com"))
    as (before & since & Hcalls & Hfetch & Hvalid & _ & Hone).
  exists before, since. repeat split; try assumption.
  apply Hone. reflexivity.
Defined.

(** The fetch stages leave the context alone. *)
Lemma fetch_stages_context (env : Environment) (isTeamServices : bool)
    (teamProjectName serverUrl collectionName : value string) (st : State) :
  repoContext
    (snd ((maybeCollection <- fetchCollection env isTeamServices serverUrl collectionName ;;
           fetchProjectAndAssemble env isTeamServices teamProjectName serverUrl
             maybeCollection) st))
  = repoContext st.
Proof.
  destruct (fetch_stages_state env isTeamServices teamProjectName serverUrl
              collectionName st) as (more & Hsnd & _).
  now rewrite Hsnd.
Qed.

(** A resolution that leaves the caller's context changed went through the
    whole default-collection fallback: the context is TFVC, the URL is not a
    Team Services URL, the remote URL was refused with 404, and the candidate
    built by [url.resolve] validated; the change is that candidate stored as
    remote URL. *)
Theorem context_changes_only_after_fallback (env : Environment) (ctx : RepositoryContext) :
  repoContext (snd (resolution env ctx)) <> ctx ->
  Type_ ctx = TFVC /\
  IsTeamFoundationServicesRepo env (RemoteUrl ctx) = false /\
  exists err candidate,
    validateCollectionUrl env (RemoteUrl ctx) = Thrown err /\
    statusCode err = defined 404 /\
    resolve env (defined (RemoteUrl ctx)) "DefaultCollection" = Returned candidate /\
    validateCollectionUrl env candidate = Returned tt /\
    repoContext (snd (resolution env ctx)) = withRemoteUrl ctx candidate.
Proof.
  intros Hchanged.
  destruct (resolution_context env ctx) as [Hsame | (Hty & _)]; [contradiction|].
  split; [exact Hty|].
  rewrite (resolution_stages env ctx (or_introl Hty)) in *.
  destruct (IsTeamFoundationServicesRepo env (RemoteUrl ctx)) eqn:Hhosted.
  - exfalso. apply Hchanged. rewrite resolveAddress_hosted.
    destruct (validateCollectionUrl env _) as [[]|err].
    + now rewrite fetch_stages_context.
    + now destruct (statusCode_is_404 err).
  - split; [reflexivity|].
    rewrite resolveAddress_onprem_run in *. cbv zeta in *. cbn [repoContext] in *.
    destruct (validateCollectionUrl env (RemoteUrl ctx)) as [[]|err] eqn:Hlit.
    { exfalso. apply Hchanged. now rewrite fetch_stages_context. }
    destruct (statusCode_is_404 err) eqn:H404; [|now exfalso; apply Hchanged].
    destruct (resolve env (defined (RemoteUrl ctx)) "DefaultCollection")
      as [candidate|failure] eqn:Hres; [|now exfalso; apply Hchanged].
    destruct (validateCollectionUrl env candidate) as [[]|err2] eqn:Hcand.
    2:{ exfalso. apply Hchanged. now destruct (statusCode_is_404 err2). }
    exists err, candidate. apply statusCode_is_404_iff in H404.
    repeat split; try assumption.
    rewrite fetch_stages_context. cbn [repoContext]. now rewrite Hty.
Qed.

Lemma context_changes_only_after_fallback_witness :
  IsTeamFoundationServicesRepo (sampleEnv (allBut "https://tfsserver/tfs"))
    "https://tfsserver/tfs" = false /\
  exists err candidate,
    validateCollectionUrl (sampleEnv (allBut "https://tfsserver/tfs"))
      "https://tfsserver/tfs" = Thrown err /\
    statusCode err = defined 404 /\
    resolve (sampleEnv (allBut "https://tfsserver/tfs"))
      (defined "https://tfsserver/tfs") "DefaultCollection" = Returned candidate /\
    validateCollectionUrl (sampleEnv (allBut "https://tfsserver/tfs")) candidate
    = Returned tt /\
    repoContext (snd (resolution (sampleEnv (allBut "https://tfsserver/tfs"))
                        (sampleContext TFVC "https://tfsserver/tfs")))
    = withRemoteUrl (sampleContext TFVC "https://tfsserver/tfs") candidate.
Proof.
  refine (proj2 (context_changes_only_after_fallback
                   (sampleEnv (allBut "https://tfsserver/tfs"))
                   (sampleContext TFVC "https://tfsserver/tfs") _)).
  vm_compute. discriminate.
Defined.

(** For a TFVC context with any remote URL, once the default-collection
    candidate has validated the stored remote URL is the candidate whatever
    happens next: it stays rewritten when the collection fetch, made for the
    original remote URL and [DefaultCollection], fails and the resolution
    throws. *)
Theorem fallback_update_survives_failure (env : Environment) (ctx : RepositoryContext)
    (candidate : string) :
  Type_ ctx = TFVC ->
  IsTeamFoundationServicesRepo env (RemoteUrl ctx) = false ->
  let st0 := {| repoContext := ctx; calls := [] |} in
  fst (validateTfvcCollectionUrl env (RemoteUrl ctx) st0) = Returned false ->
  resolve env (defined (RemoteUrl ctx)) "DefaultCollection" = Returned candidate ->
  fst (validateTfvcCollectionUrl env candidate st0) = Returned true ->
  repoContext (snd (resolution env ctx)) = withRemoteUrl ctx candidate /\
  In (TfsCatalogSoapClient_GetProjectCollection (defined (RemoteUrl ctx))
        (defined "DefaultCollection"))
     (calls (snd (resolution env ctx))) /\
  (forall err,
      soapGetProjectCollection env (defined (RemoteUrl ctx)) (defined "DefaultCollection")
      = Thrown err ->
      fst (resolution env ctx) = Thrown err).
Proof.
  intros Hty Hhosted st0 Hlit Hres Hcand.
  apply validate_false_inv in Hlit as (err0 & Hlit & H404).
  apply validate_true_inv in Hcand.
  rewrite (resolution_stages env ctx (or_introl Hty)), Hhosted, resolveAddress_onprem_run.
  cbv zeta. cbn [repoContext]. rewrite Hlit, H404, Hres, Hcand, Hty. cbn [fst snd].
  split; [now rewrite fetch_stages_context|]. split.
  - match goal with
    | |- context [bind _ _ ?st] =>
        destruct (fetch_stages_state env false (TeamProjectName ctx)
                    (defined (RemoteUrl ctx)) (defined "DefaultCollection") st)
          as (more & Hsnd & _)
    end.
    rewrite Hsnd. cbn [calls collectionFetch]. apply in_or_app. right. now left.
  - intros err Hsoap. rewrite fetch_stages_run. cbv zeta.
    unfold collectionAnswer. now rewrite Hsoap.
Qed.

Lemma fallback_update_survives_failure_witness :
  fst (resolution (sampleEnvAnswering (refusing "https://tfsserver/tfs") (Thrown serverError))
         (sampleContext TFVC "https://tfsserver/tfs"))
  = Thrown serverError /\
  repoContext (snd (resolution
                      (sampleEnvAnswering (refusing "https://tfsserver/tfs")
                         (Thrown serverError))
                      (sampleContext TFVC "https://tfsserver/tfs")))
  = withRemoteUrl (sampleContext TFVC "https://tfsserver/tfs")
      "https://tfsserver/DefaultCollection".
Proof.
  destruct (fallback_update_survives_failure
              (sampleEnvAnswering (refusing "https://tfsserver/tfs") (Thrown serverError))
              (sampleContext TFVC "https://tfsserver/tfs")
              "https://tfsserver/DefaultCollection"
              eq_refl eq_refl eq_refl eq_refl eq_refl) as (Hctx & _ & Hthrow).
  split; [apply Hthrow; reflexivity | exact Hctx].
Defined.

End ResolutionLaws.
